(** * A character n-gram word-completion model and its terminal edit session

    Shallow embedding of [Assignment_1/2024202006_Q2/Code/ngram.py]
    (class [NgramCharacterModel]) and of the key handling of
    [Assignment_1/2024202006_Q2/Code/user_interface.py] (class [TerminalUI]).

    Conventions of the embedding.
    - A Python [str] is a [list ascii]; characters are code points below 256.
    - A Python [int] used as an index, an order or a key code is a [Z]; the
      counters, which start at 0 and are only ever incremented, are [nat].
    - A [defaultdict(int)] is a [gmap] read with default 0.
    - A Python [float] is idealised as an exact rational [Q]: [a / b] is the
      reduced fraction, and a value in log space is represented by the
      positive rational it is the logarithm of, so that
      [math.exp(math.log(x1) + ... + math.log(xk))] is the exact product.
      Rounding, overflow and underflow of machine floats are outside the model.
    - Code that can raise returns a [result]. *)

From Stdlib Require Import ZArith QArith Qreduction Ascii String Sorted.
From stdpp Require Import base list gmap strings sorting.

Open Scope Z_scope.

Abbreviation str := (list ascii).

(** ** Exceptions *)

Inductive exn : Type :=
| ValueError   (* math.log at a non-positive argument *)
| IndexError.  (* list index out of range *)

Inductive result (A : Type) : Type :=
| Returns (a : A)
| Raises (e : exn).
Arguments Returns {A} a.
Arguments Raises {A} e.

Definition bind {A B} (r : result A) (k : A -> result B) : result B :=
  match r with
  | Returns a => k a
  | Raises e => Raises e
  end.

Notation "'let*' x ':=' r 'in' k" := (bind r (fun x => k))
  (at level 10, x name, r at level 100, k at level 200).

Fixpoint mapM {A B} (f : A -> result B) (l : list A) : result (list B) :=
  match l with
  | [] => Returns []
  | x :: l' => let* y := f x in let* ys := mapM f l' in Returns (y :: ys)
  end.

(** ** Python built-ins used by the two classes *)

(** [len(s)] *)
Definition len {A} (s : list A) : Z := Z.of_nat (length s).

(** Normalisation of one slice bound against a sequence of length [l]:
    a negative bound counts from the end, and both are clamped to [0, l]. *)
Definition slice_index (l k : Z) : Z :=
  if k <? 0 then Z.max 0 (l + k) else Z.min k l.

(** [s[lo:hi]] *)
Definition py_slice {A} (s : list A) (lo hi : Z) : list A :=
  let a := slice_index (len s) lo in
  let b := slice_index (len s) hi in
  take (Z.to_nat (b - a)) (drop (Z.to_nat a) s).

(** [s[lo:]] *)
Definition py_slice_from {A} (s : list A) (lo : Z) : list A :=
  drop (Z.to_nat (slice_index (len s) lo)) s.

(** [s[i]] *)
Definition py_index {A} (s : list A) (i : Z) : result A :=
  let j := if i <? 0 then len s + i else i in
  if (0 <=? j) && (j <? len s) then
    match s !! Z.to_nat j with
    | Some x => Returns x
    | None => Raises IndexError
    end
  else Raises IndexError.

(** [c * k] for a one-character string [c]; empty when [k <= 0]. *)
Definition py_repeat (c : ascii) (k : Z) : str := replicate (Z.to_nat k) c.

(** [range(k)]; empty when [k <= 0]. *)
Definition py_range (k : Z) : list Z := Z.of_nat <$> seq 0 (Z.to_nat k).

(** [c.isspace()] on code points below 256: tab, line feed, vertical tab, form
    feed, carriage return, the four separators 28..31, space, NEL and NBSP. *)
Definition isspace (c : ascii) : bool :=
  let k := Z.of_nat (nat_of_ascii c) in
  ((9 <=? k) && (k <=? 13)) || ((28 <=? k) && (k <=? 31))
  || (k =? 32) || (k =? 133) || (k =? 160).

(** [s.split()]: the maximal runs of non-whitespace characters, left to right.
    [cur] holds the characters of the run being read, most recent first. *)
Fixpoint split_from (cur : str) (s : str) : list str :=
  match s with
  | [] => match cur with [] => [] | _ => [rev cur] end
  | c :: s' =>
      if isspace c then
        match cur with
        | [] => split_from [] s'
        | _ => rev cur :: split_from [] s'
        end
      else split_from (c :: cur) s'
  end.

Definition split (s : str) : list str := split_from [] s.

(** [s.lstrip()], [s.rstrip()] and [s.strip()] *)
Fixpoint lstrip (s : str) : str :=
  match s with
  | c :: s' => if isspace c then lstrip s' else s
  | [] => []
  end.

Definition rstrip (s : str) : str := rev (lstrip (rev s)).

Definition strip (s : str) : str := lstrip (rstrip s).

(** The longest prefix of [l] whose elements all satisfy [f]. *)
Fixpoint take_while {A} (f : A -> bool) (l : list A) : list A :=
  match l with
  | x :: l' => if f x then x :: take_while f l' else []
  | [] => []
  end.

(** [w.startswith(prefix)] *)
Fixpoint startswith (w prefix : str) : bool :=
  match prefix, w with
  | [], _ => true
  | p :: prefix', c :: w' => bool_decide (c = p) && startswith w' prefix'
  | _ :: _, [] => false
  end.

(** [a / b] on two ints with [b <> 0]: the float quotient, kept in lowest
    terms so that equal values are equal terms. *)
Definition py_truediv (a b : Z) : Q := Qred (inject_Z a / inject_Z b).

(** A float in log space: [LogOf q] stands for the real number [log q]. *)
Record logfloat : Type := LogOf { exp_of : Q }.

(** [math.log(x)]: raises [ValueError] unless [x > 0]. *)
Definition math_log (x : Q) : result logfloat :=
  if Qle_bool x 0 then Raises ValueError else Returns (LogOf x).

(** [math.exp(l)] *)
Definition math_exp (l : logfloat) : Q := exp_of l.

(** [0.0] as a log-space accumulator, which is [log 1]. *)
Definition log_zero : logfloat := LogOf 1.

(** [l1 + l2] in log space *)
Definition log_add (l1 l2 : logfloat) : logfloat := LogOf (exp_of l1 * exp_of l2).

(** [a > b] on floats *)
Definition Qgt_bool (a b : Q) : bool := negb (Qle_bool a b).

(** [d[k]] on a [defaultdict(int)]. Reading a missing key also stores the
    default 0 under it; such an entry reads as 0 exactly like a missing one,
    so the map is left as it is. *)
Definition get0 (d : gmap str nat) (k : str) : nat := default 0%nat (d !! k).

(** [d[k] += 1] on a [defaultdict(int)] *)
Definition incr (k : str) (d : gmap str nat) : gmap str nat :=
  <[k := S (get0 d k)]> d.

(** ** ngram.py: class NgramCharacterModel *)

Record NgramCharacterModel : Type := {
  self_n : Z;
  ngram_counts : gmap str nat;
  prefix_counts : gmap str nat;
  (** the content of the set [self.words], each word once, in the order of
      first insertion; the order in which the set is iterated is [set_iter]
      below *)
  words : list str
}.

(** [self.words.add(word)] *)
Definition words_add (word : str) (ws : list str) : list str :=
  if bool_decide (word ∈ ws) then ws else ws ++ [word].

(** [("#" * (n - 1)) + word + "$"] *)
Definition pad (n : Z) (word : str) : str :=
  py_repeat "#"%char (n - 1) ++ word ++ ["$"%char].

(** The values taken by [ngram] in
    [for i in range(len(padded_word) - n + 1): ngram = padded_word[i : i + n]] *)
Definition ngrams (n : Z) (padded_word : str) : list str :=
  (fun i => py_slice padded_word i (i + n)) <$> py_range (len padded_word - n + 1).

(** The body of the inner loop of [_train]. *)
Definition count_ngram (self : NgramCharacterModel) (ngram : str) : NgramCharacterModel :=
  let prefix := py_slice ngram 0 (-1) in
  {| self_n := self_n self;
     ngram_counts := incr ngram (ngram_counts self);
     prefix_counts := incr prefix (prefix_counts self);
     words := words self |}.

(** The body of the outer loop of [_train]. *)
Definition train_word (self : NgramCharacterModel) (word : str) : NgramCharacterModel :=
  let self1 := {| self_n := self_n self;
                  ngram_counts := ngram_counts self;
                  prefix_counts := prefix_counts self;
                  words := words_add word (words self) |} in
  let padded_word := pad (self_n self1) word in
  foldl count_ngram self1 (ngrams (self_n self1) padded_word).

Definition _train (self : NgramCharacterModel) (corpus : str) : NgramCharacterModel :=
  let tokens := split corpus in
  foldl train_word self tokens.

(** [NgramCharacterModel(corpus, n)]: no statement of the constructor raises. *)
Definition __init__ (corpus : str) (n : Z) : result NgramCharacterModel :=
  let self := {| self_n := n; ngram_counts := ∅; prefix_counts := ∅; words := [] |} in
  Returns (_train self corpus).

(** The loop of [_word_probability] over the remaining n-grams. *)
Fixpoint word_probability_loop (self : NgramCharacterModel) (todo : list str)
    (log_prob : logfloat) : result Q :=
  match todo with
  | [] => Returns (math_exp log_prob)
  | ngram :: todo' =>
      let prefix := py_slice ngram 0 (-1) in
      let count_ngram := get0 (ngram_counts self) ngram in
      let count_prefix := get0 (prefix_counts self) prefix in
      if (count_prefix =? 0)%nat then Returns 0%Q
      else
        let prob := py_truediv (Z.of_nat count_ngram) (Z.of_nat count_prefix) in
        let* l := math_log prob in
        word_probability_loop self todo' (log_add log_prob l)
  end.

Definition _word_probability (self : NgramCharacterModel) (word : str) : result Q :=
  let padded_word := pad (self_n self) word in
  word_probability_loop self (ngrams (self_n self) padded_word) log_zero.

(** *** Queries over the vocabulary

    [for w in self.words] visits the elements of a Python set in an order
    fixed by the hash table, not by the program: [set_iter] maps the content
    of the set to the order in which it is iterated. The set is never changed
    after training, so both queries see the same order. *)

Section Queries.

Variable set_iter : list str -> list str.

(** [[w for w in self.words if w.startswith(prefix)]] *)
Definition candidates_for (self : NgramCharacterModel) (prefix : str) : list str :=
  List.filter (fun w => startswith w prefix) (set_iter (words self)).

(** The loop of [max(iterable, key=key)] after the first item: the current
    maximum is replaced only by an item whose key is strictly greater. *)
Fixpoint max_loop (key : str -> result Q) (maxitem : str) (maxval : Q)
    (l : list str) : result str :=
  match l with
  | [] => Returns maxitem
  | item :: l' =>
      let* val := key item in
      if Qgt_bool val maxval then max_loop key item val l'
      else max_loop key maxitem maxval l'
  end.

(** [max(l, key=key)] *)
Definition py_max (key : str -> result Q) (l : list str) : result str :=
  match l with
  | [] => Raises ValueError
  | item :: l' => let* val := key item in max_loop key item val l'
  end.

(** Insertion of a keyed item into a list sorted by non-increasing key, after
    the items whose key is strictly greater and before all others. *)
Fixpoint insert_desc (x : Q * str) (l : list (Q * str)) : list (Q * str) :=
  match l with
  | [] => [x]
  | y :: l' => if Qgt_bool (fst y) (fst x) then y :: insert_desc x l' else x :: y :: l'
  end.

(** [l.sort(key=key, reverse=True)]: every key is computed first, in list
    order; the sort is stable, so items with equal keys keep their original
    order. A stable sort has one possible result, computed here by insertion
    from the right. *)
Definition py_sort_reverse (key : str -> result Q) (l : list str) : result (list str) :=
  let* keys := mapM key l in
  Returns (snd <$> foldr insert_desc [] (zip keys l)).

Definition _generate_word (self : NgramCharacterModel) (prefix : str) : result str :=
  let candidates := candidates_for self prefix in
  match candidates with
  | [] => Returns prefix
  | _ => py_max (_word_probability self) candidates
  end.

Definition predict_top_words (self : NgramCharacterModel) (prefix : str) (top_k : Z)
    : result (list str) :=
  let candidates := candidates_for self prefix in
  match candidates with
  | [] => Returns []
  | _ =>
      let* candidates := py_sort_reverse (_word_probability self) candidates in
      Returns (py_slice candidates 0 top_k)
  end.

(** ** user_interface.py: class TerminalUI *)

(** A value of the list [self.scores]: an [int] or a [float]. *)
Inductive pyval : Type :=
| PyInt (z : Z)
| PyFloat (q : Q).

(** The fields of [TerminalUI] read or written by the key handling; the
    curses windows and the displayed text are left to the renderer. *)
Record TerminalUI : Type := {
  suggestions : list str;
  current_suggestion_idx : Z;
  scores : list pyval;
  user_input : str;
  cursor_pos : Z;
  prediction_model : NgramCharacterModel;
  total_letter_keys_typed : nat;
  total_tab_key_presses : nat
}.

(** [TerminalUI(prediction_model)] *)
Definition TerminalUI_init (prediction_model : NgramCharacterModel) : TerminalUI :=
  {| suggestions := []; current_suggestion_idx := 0; scores := [];
     user_input := []; cursor_pos := 0; prediction_model := prediction_model;
     total_letter_keys_typed := 0; total_tab_key_presses := 0 |}.

Definition calculate_scores (self : TerminalUI) (text : str) : list pyval :=
  let words := split (strip text) in
  let num_words := len words in
  let avg_letters :=
    if 0 <? num_words then py_truediv (Z.of_nat (total_letter_keys_typed self)) num_words
    else 0%Q in
  let avg_tabs :=
    if 0 <? num_words then py_truediv (Z.of_nat (total_tab_key_presses self)) num_words
    else 0%Q in
  [ PyInt (Z.of_nat (total_letter_keys_typed self));
    PyInt (Z.of_nat (total_tab_key_presses self));
    PyFloat avg_letters;
    PyFloat avg_tabs ].

(** [re.search(r"[^\s]*$", text)]: the leftmost match, as [match.group(0)].
    [$] matches at the end of the string and also just before a line feed
    that ends the string, so the run of non-whitespace characters found is
    the one ending there when the string ends with a line feed. There is
    always a match, possibly empty. *)
Definition re_search_nonspace_end (text : str) : option str :=
  let run (r : str) := rev (take_while (fun c => negb (isspace c)) r) in
  match rev text with
  | c :: r => if bool_decide (c = "010"%char) then Some (run r) else Some (run (c :: r))
  | [] => Some []
  end.

Definition find_last_word_start (text : str) (cursor_pos : Z) : Z :=
  if cursor_pos =? 0 then 0
  else
    let text_before_cursor := py_slice text 0 cursor_pos in
    match re_search_nonspace_end text_before_cursor with
    | Some group0 => cursor_pos - len group0
    | None => cursor_pos
    end.

Definition get_current_word (self : TerminalUI) : str :=
  let word_start := find_last_word_start (user_input self) (cursor_pos self) in
  py_slice (user_input self) word_start (cursor_pos self).

Definition replace_current_word (self : TerminalUI) (new_word : str) : TerminalUI :=
  let word_start := find_last_word_start (user_input self) (cursor_pos self) in
  {| suggestions := suggestions self;
     current_suggestion_idx := current_suggestion_idx self;
     scores := scores self;
     user_input := py_slice (user_input self) 0 word_start ++ new_word
                   ++ py_slice_from (user_input self) (cursor_pos self);
     cursor_pos := word_start + len new_word;
     prediction_model := prediction_model self;
     total_letter_keys_typed := total_letter_keys_typed self;
     total_tab_key_presses := total_tab_key_presses self |}.

(** Key codes of the curses library. *)
Definition KEY_BACKSPACE : Z := 263.
Definition KEY_LEFT : Z := 260.
Definition KEY_RIGHT : Z := 261.
Definition KEY_RESIZE : Z := 410.

(** The statements shared by the backspace, arrow and character branches:
    [current_word = self.get_current_word()],
    [self.suggestions = self.prediction_model.predict_top_words(current_word)]
    (with the default [top_k=10]) and [self.current_suggestion_idx = 0]. *)
Definition refresh_suggestions (self : TerminalUI) : result TerminalUI :=
  let current_word := get_current_word self in
  let* sugg := predict_top_words (prediction_model self) current_word 10 in
  Returns {| suggestions := sugg;
             current_suggestion_idx := 0;
             scores := scores self;
             user_input := user_input self;
             cursor_pos := cursor_pos self;
             prediction_model := prediction_model self;
             total_letter_keys_typed := total_letter_keys_typed self;
             total_tab_key_presses := total_tab_key_presses self |}.

(** [self.scores = self.calculate_scores(self.user_input)] *)
Definition refresh_scores (self : TerminalUI) : TerminalUI :=
  {| suggestions := suggestions self;
     current_suggestion_idx := current_suggestion_idx self;
     scores := calculate_scores self (user_input self);
     user_input := user_input self;
     cursor_pos := cursor_pos self;
     prediction_model := prediction_model self;
     total_letter_keys_typed := total_letter_keys_typed self;
     total_tab_key_presses := total_tab_key_presses self |}.

Definition set_cursor_pos (self : TerminalUI) (pos : Z) : TerminalUI :=
  {| suggestions := suggestions self;
     current_suggestion_idx := current_suggestion_idx self;
     scores := scores self;
     user_input := user_input self;
     cursor_pos := pos;
     prediction_model := prediction_model self;
     total_letter_keys_typed := total_letter_keys_typed self;
     total_tab_key_presses := total_tab_key_presses self |}.

Definition set_user_input (self : TerminalUI) (text : str) : TerminalUI :=
  {| suggestions := suggestions self;
     current_suggestion_idx := current_suggestion_idx self;
     scores := scores self;
     user_input := text;
     cursor_pos := cursor_pos self;
     prediction_model := prediction_model self;
     total_letter_keys_typed := total_letter_keys_typed self;
     total_tab_key_presses := total_tab_key_presses self |}.

(** [handle_input(key)]: the updated object and the returned flag, which is
    [False] only for ESC. *)
Definition handle_input (self : TerminalUI) (key : Z) : result (TerminalUI * bool) :=
  if key =? KEY_RESIZE then Returns (self, true)
  else if key =? 27 then Returns (self, false)
  else if key =? 9 then
    let idx :=
      match suggestions self with
      | [] => current_suggestion_idx self
      | _ => (current_suggestion_idx self + 1) `mod` len (suggestions self)
      end in
    Returns ({| suggestions := suggestions self;
                current_suggestion_idx := idx;
                scores := scores self;
                user_input := user_input self;
                cursor_pos := cursor_pos self;
                prediction_model := prediction_model self;
                total_letter_keys_typed := total_letter_keys_typed self;
                total_tab_key_presses := S (total_tab_key_presses self) |}, true)
  else if key =? 10 then
    match suggestions self with
    | [] => Returns (self, true)
    | _ =>
        if current_suggestion_idx self <? len (suggestions self) then
          let* new_word := py_index (suggestions self) (current_suggestion_idx self) in
          let self1 := replace_current_word self new_word in
          Returns ({| suggestions := [];
                      current_suggestion_idx := 0;
                      scores := scores self1;
                      user_input := user_input self1;
                      cursor_pos := cursor_pos self1;
                      prediction_model := prediction_model self1;
                      total_letter_keys_typed := total_letter_keys_typed self1;
                      total_tab_key_presses := total_tab_key_presses self1 |}, true)
        else Returns (self, true)
    end
  else if (key =? KEY_BACKSPACE) || (key =? 127) || (key =? 8) then
    if 0 <? cursor_pos self then
      let self1 :=
        set_user_input self (py_slice (user_input self) 0 (cursor_pos self - 1)
                             ++ py_slice_from (user_input self) (cursor_pos self)) in
      let self2 := set_cursor_pos self1 (cursor_pos self1 - 1) in
      let* self3 := refresh_suggestions self2 in
      Returns (refresh_scores self3, true)
    else Returns (self, true)
  else if key =? KEY_LEFT then
    if 0 <? cursor_pos self then
      let self1 := set_cursor_pos self (cursor_pos self - 1) in
      let* self2 := refresh_suggestions self1 in
      Returns (self2, true)
    else Returns (self, true)
  else if key =? KEY_RIGHT then
    if cursor_pos self <? len (user_input self) then
      let self1 := set_cursor_pos self (cursor_pos self + 1) in
      let* self2 := refresh_suggestions self1 in
      Returns (self2, true)
    else Returns (self, true)
  else if (32 <=? key) && (key <=? 126) then
    let char := ascii_of_nat (Z.to_nat key) in
    let self1 :=
      {| suggestions := suggestions self;
         current_suggestion_idx := current_suggestion_idx self;
         scores := scores self;
         user_input := py_slice (user_input self) 0 (cursor_pos self) ++ [char]
                       ++ py_slice_from (user_input self) (cursor_pos self);
         cursor_pos := cursor_pos self + 1;
         prediction_model := prediction_model self;
         total_letter_keys_typed := S (total_letter_keys_typed self);
         total_tab_key_presses := total_tab_key_presses self |} in
    let* self2 := refresh_suggestions self1 in
    Returns (refresh_scores self2, true)
  else Returns (self, true).

(** The loop of [run], fed with the key codes that [getch] returns, in order:
    [running = self.handle_input(key)] ends the loop when it is [False], and
    the keys that follow are never read. *)
Fixpoint run (self : TerminalUI) (keys : list Z) : result TerminalUI :=
  match keys with
  | [] => Returns self
  | key :: keys' =>
      let* r := handle_input self key in
      if snd r then run (fst r) keys' else Returns (fst r)
  end.

End Queries.

(** ** Auxiliary definitions used by the statements and proofs *)

(** A string literal as a Python [str]. *)
Definition s (x : string) : str := list_ascii_of_string x.

(** *** The texts computed by the drawing methods

    The drawing methods compute strings and hand them to the curses window
    with [addstr]. The functions below are those computations, with the size
    [h], [w] that [getmaxyx()] returned as parameters; the calls into curses
    themselves are not modelled. *)

(** The loop of [draw_suggestions_panel] over [enumerate(self.suggestions)],
    from index [i] on. *)
Fixpoint suggestions_text_loop (current_suggestion_idx : Z) (i : Z)
    (todo : list str) (display_text : str) : str :=
  match todo with
  | [] => display_text
  | suggestion :: todo' =>
      let piece :=
        if i =? current_suggestion_idx then s "[" ++ suggestion ++ s "] "
        else suggestion ++ s " " in
      suggestions_text_loop current_suggestion_idx (i + 1) todo' (display_text ++ piece)
  end.

(** [draw_suggestions_panel]: the text written at row 1, column 2. *)
Definition draw_suggestions_panel (self : TerminalUI) (w : Z) : str :=
  match suggestions self with
  | [] => s "No suggestions"
  | _ =>
      let display_text :=
        suggestions_text_loop (current_suggestion_idx self) 0 (suggestions self) [] in
      if w - 4 <? len display_text then py_slice display_text 0 (w - 7) ++ s "..."
      else display_text
  end.

(** The loop of [draw_text_panel] over the words, with the lines finished so
    far and the line being filled. *)
Fixpoint text_lines_loop (w : Z) (todo : list str) (lines : list str)
    (current_line : str) : list str * str :=
  match todo with
  | [] => (lines, current_line)
  | word :: todo' =>
      if w - 4 <? len (current_line ++ s " " ++ word) then
        text_lines_loop w todo' (lines ++ [current_line]) word
      else
        text_lines_loop w todo' lines
          (match current_line with
           | [] => word
           | _ => current_line ++ s " " ++ word
           end)
  end.

(** [draw_text_panel]: the list [lines] after the final
    [if current_line: lines.append(current_line)]. *)
Definition text_lines (text_content : str) (w : Z) : list str :=
  let words := split text_content in
  let r := text_lines_loop w words [] [] in
  match snd r with
  | [] => fst r
  | _ => fst r ++ [snd r]
  end.

(** [draw_text_panel]: the calls [addstr(i + 1, 2, line)], as triples, made
    for the lines with [i < h - 2]. *)
Fixpoint text_panel_calls (h : Z) (i : Z) (lines : list str) : list (Z * Z * str) :=
  match lines with
  | [] => []
  | line :: lines' =>
      if i <? h - 2 then (i + 1, 2, line) :: text_panel_calls h (i + 1) lines'
      else text_panel_calls h (i + 1) lines'
  end.

Definition draw_text_panel (text_content : str) (h w : Z) : list (Z * Z * str) :=
  text_panel_calls h 0 (text_lines text_content w).

(** The [while] loop of [draw_input_panel]. Each turn appends one line and the
    loop stops once [len(lines) >= h - 2], so [fuel] only has to cover the
    rows left. *)
Fixpoint input_lines_loop (fuel : nat) (text : str) (available_width h : Z)
    (lines : list str) (current_pos : Z) : list str :=
  match fuel with
  | O => lines
  | S fuel' =>
      if (current_pos <? len text) && (len lines <? h - 2) then
        let next_chunk := py_slice text current_pos (current_pos + available_width) in
        input_lines_loop fuel' text available_width h (lines ++ [next_chunk])
          (current_pos + len next_chunk)
      else lines
  end.

(** [draw_input_panel]: the list [lines] into which the buffer is cut. *)
Definition input_lines (self : TerminalUI) (h w : Z) : list str :=
  let prompt_len := 2 in
  let available_width := w - 4 in
  let first_line_width := available_width - prompt_len in
  let text := user_input self in
  let first_line_text :=
    match text with
    | [] => []
    | _ => py_slice text 0 first_line_width
    end in
  let lines := [first_line_text] in
  let current_pos := len first_line_text in
  input_lines_loop (Z.to_nat (h - 2 - len lines)) text available_width h lines current_pos.

(** The key codes of the characters of a string literal. *)
Definition keys_of (x : string) : list Z := (fun c => Z.of_nat (nat_of_ascii c)) <$> s x.

(** [ngram[:-1]] *)
Definition prefix_of (ngram : str) : str := py_slice ngram 0 (-1).

(** Every n-gram counted while training on [tokens], in counting order. *)
Definition trained_ngrams (n : Z) (tokens : list str) : list str :=
  tokens ≫= (fun word => ngrams n (pad n word)).

(** The number of elements of [l] that satisfy [f]. *)
Definition count_if {A} (f : A -> bool) (l : list A) : nat := length (List.filter f l).

(** The sum of [d[g]] over the keys [g] of [d] that satisfy [f]. *)
Definition sum_counts (f : str -> bool) (d : gmap str nat) : nat :=
  sum_list ((fun gc : str * nat => if f gc.1 then gc.2 else 0%nat) <$> map_to_list d).

(** [max_loop], [insert_desc] and the sort for a key function that does not
    raise. *)
Fixpoint max_by (f : str -> Q) (maxitem : str) (l : list str) : str :=
  match l with
  | [] => maxitem
  | item :: l' =>
      if Qgt_bool (f item) (f maxitem) then max_by f item l' else max_by f maxitem l'
  end.

Fixpoint insert_by (f : str -> Q) (x : str) (l : list str) : list str :=
  match l with
  | [] => [x]
  | y :: l' => if Qgt_bool (f y) (f x) then y :: insert_by f x l' else x :: y :: l'
  end.

Definition sort_by (f : str -> Q) (l : list str) : list str := foldr (insert_by f) [] l.

(** An item paired with its key, as the sort holds it. *)
Definition tag_key (f : str -> Q) (w : str) : Q * str := (f w, w).

(** [a] comes no later than [b] in an order of non-increasing key. *)
Definition key_ge (f : str -> Q) (a b : str) : Prop := (f b <= f a)%Q.

(** The score of a word, as a number: 0 where [_word_probability] raises. *)
Definition prob_of (self : NgramCharacterModel) (w : str) : Q :=
  match _word_probability self w with
  | Returns q => q
  | Raises _ => 0%Q
  end.

(** [a] and [b] are both scored without error and [a] scores at least as much
    as [b]. *)
Definition prob_ge (self : NgramCharacterModel) (a b : str) : Prop :=
  exists qa qb, _word_probability self a = Returns qa
    /\ _word_probability self b = Returns qb /\ (qb <= qa)%Q.

(** [a] and [b] are both scored without error and [a] scores strictly less
    than [b]. *)
Definition prob_lt (self : NgramCharacterModel) (a b : str) : Prop :=
  exists qa qb, _word_probability self a = Returns qa
    /\ _word_probability self b = Returns qb /\ (qa < qb)%Q.

(** The empty model that [__init__] hands to [_train]. *)
Definition untrained (n : Z) : NgramCharacterModel :=
  {| self_n := n; ngram_counts := ∅; prefix_counts := ∅; words := [] |}.

(** A small corpus, the bigram model trained on it, and two sessions over
    that model, used as concrete instances. *)
Definition cat_corpus : str := s "cat cats catalog".

Definition cat_model : NgramCharacterModel := _train (untrained 2) cat_corpus.

Definition cat_session : TerminalUI :=
  {| suggestions := []; current_suggestion_idx := 0; scores := [];
     user_input := s "cat"; cursor_pos := 3; prediction_model := cat_model;
     total_letter_keys_typed := 2; total_tab_key_presses := 1 |}.

Definition two_word_session : TerminalUI :=
  {| suggestions := []; current_suggestion_idx := 0; scores := [];
     user_input := s "ab cde"; cursor_pos := 6; prediction_model := cat_model;
     total_letter_keys_typed := 6; total_tab_key_presses := 2 |}.

(** A key that the last branch of [handle_input] inserts. *)
Definition is_printable (key : Z) : bool := (32 <=? key) && (key <=? 126).

(** The keys that [run] dispatches: those before the first ESC. *)
Definition until_quit (keys : list Z) : list Z :=
  take_while (fun key => negb (key =? 27)) keys.

(** What the key handling keeps true of a session over the model [M]: the
    cursor lies in the buffer, the cycle index is 0 or a valid index, the
    buffer holds no line feed, and the suggestions are at most ten vocabulary
    words that start with the word before the cursor. *)
Definition session_ok (M : NgramCharacterModel) (u : TerminalUI) : Prop :=
  prediction_model u = M
  /\ 0 <= cursor_pos u <= len (user_input u)
  /\ ((current_suggestion_idx u = 0)
      \/ (0 < current_suggestion_idx u /\ current_suggestion_idx u < len (suggestions u)))
  /\ ("010"%char ∉ user_input u)
  /\ len (suggestions u) <= 10
  /\ (forall w, w ∈ suggestions u ->
        w ∈ words M /\ startswith w (get_current_word u) = true).

(** The outcome [r] of [handle_input] on [u] and [key] is a normal return,
    with the flag that only ESC clears, of a session that is still
    [session_ok] and whose two counters moved by what [key] adds to them. *)
Definition key_step_ok (M : NgramCharacterModel) (u : TerminalUI) (key : Z)
    (r : result (TerminalUI * bool)) : Prop :=
  exists u', r = Returns (u', negb (key =? 27))
    /\ session_ok M u'
    /\ total_letter_keys_typed u'
       = (total_letter_keys_typed u + if is_printable key then 1 else 0)%nat
    /\ total_tab_key_presses u'
       = (total_tab_key_presses u + if (key =? 9)%Z then 1 else 0)%nat.

(** [" ".join(group)] *)
Definition join_space (group : list str) : str :=
  match group with
  | [] => []
  | x :: group' => foldl (fun acc y => acc ++ s " " ++ y) x group'
  end.

(** * Properties *)

(** ** Counting *)

Lemma get0_empty k : get0 ∅ k = 0%nat.
Proof. unfold get0. by rewrite lookup_empty. Qed.

Lemma get0_incr k d k' :
  get0 (incr k d) k' = (get0 d k' + if bool_decide (k = k') then 1 else 0)%nat.
Proof.
  unfold incr, get0. case_bool_decide as Hk.
  - subst. rewrite lookup_insert_eq. simpl. lia.
  - rewrite lookup_insert_ne by done. lia.
Qed.

Lemma get0_foldl_incr (f : str -> str) gs d k :
  get0 (foldl (fun d g => incr (f g) d) d gs) k
  = (get0 d k + count_if (fun g => bool_decide (f g = k)) gs)%nat.
Proof.
  revert d. induction gs as [|g gs IH]; intros d; simpl.
  - unfold count_if. simpl. lia.
  - rewrite IH, get0_incr. unfold count_if. simpl.
    case_bool_decide; simpl; lia.
Qed.

Lemma sum_counts_empty f : sum_counts f ∅ = 0%nat.
Proof. unfold sum_counts. by rewrite map_to_list_empty. Qed.

Lemma sum_counts_incr f k d :
  sum_counts f (incr k d) = (sum_counts f d + if f k then 1 else 0)%nat.
Proof.
  unfold sum_counts, incr, get0.
  destruct (d !! k) as [c|] eqn:Hk; simpl.
  - rewrite <- (insert_delete_eq d k (S c)).
    rewrite map_to_list_insert by apply lookup_delete_eq.
    rewrite <- (map_to_list_delete d k c Hk).
    csimpl. destruct (f k); lia.
  - rewrite map_to_list_insert by done. csimpl. destruct (f k); lia.
Qed.

Lemma sum_counts_foldl_incr f gs d :
  sum_counts f (foldl (fun d g => incr g d) d gs) = (sum_counts f d + count_if f gs)%nat.
Proof.
  revert d. induction gs as [|g gs IH]; intros d; simpl.
  - unfold count_if. simpl. lia.
  - rewrite IH, sum_counts_incr. unfold count_if. simpl.
    destruct (f g); simpl; lia.
Qed.

(** The inner loop only touches the two dictionaries. *)
Lemma foldl_count_ngram self gs :
  foldl count_ngram self gs =
  {| self_n := self_n self;
     ngram_counts := foldl (fun d g => incr g d) (ngram_counts self) gs;
     prefix_counts := foldl (fun d g => incr (prefix_of g) d) (prefix_counts self) gs;
     words := words self |}.
Proof.
  revert self. induction gs as [|g gs IH]; intros self; simpl.
  - by destruct self.
  - rewrite IH. reflexivity.
Qed.

(** The whole of [_train], dictionary by dictionary. *)
Lemma foldl_train_word self tokens :
  foldl train_word self tokens =
  {| self_n := self_n self;
     ngram_counts := foldl (fun d g => incr g d) (ngram_counts self)
                       (trained_ngrams (self_n self) tokens);
     prefix_counts := foldl (fun d g => incr (prefix_of g) d) (prefix_counts self)
                       (trained_ngrams (self_n self) tokens);
     words := foldl (fun ws w => words_add w ws) (words self) tokens |}.
Proof.
  revert self. induction tokens as [|w tokens IH]; intros self; simpl.
  - by destruct self.
  - rewrite IH. unfold train_word, trained_ngrams. rewrite foldl_count_ngram. simpl.
    by rewrite !foldl_app.
Qed.

Lemma trained_ngram_count corpus n g :
  get0 (ngram_counts (_train (untrained n) corpus)) g
  = count_if (fun g' => bool_decide (g' = g)) (trained_ngrams n (split corpus)).
Proof.
  unfold _train. rewrite foldl_train_word. simpl.
  by rewrite (get0_foldl_incr id), get0_empty.
Qed.

Lemma trained_prefix_count corpus n p :
  get0 (prefix_counts (_train (untrained n) corpus)) p
  = count_if (fun g => bool_decide (prefix_of g = p)) (trained_ngrams n (split corpus)).
Proof.
  unfold _train. rewrite foldl_train_word. simpl.
  by rewrite get0_foldl_incr, get0_empty.
Qed.

Lemma trained_sum_counts corpus n f :
  sum_counts f (ngram_counts (_train (untrained n) corpus))
  = count_if f (trained_ngrams n (split corpus)).
Proof.
  unfold _train. rewrite foldl_train_word. simpl.
  by rewrite sum_counts_foldl_incr, sum_counts_empty.
Qed.

Lemma trained_self_n corpus n : self_n (_train (untrained n) corpus) = n.
Proof. unfold _train. by rewrite foldl_train_word. Qed.

Lemma count_if_ext {A} (f g : A -> bool) l :
  (forall x, x ∈ l -> f x = g x) -> count_if f l = count_if g l.
Proof.
  unfold count_if. induction l as [|x l IH]; intros H; simpl; [done|].
  rewrite (H x) by left. destruct (g x); simpl; rewrite IH; try done;
    intros y Hy; apply H; by right.
Qed.

Lemma count_if_le {A} (f g : A -> bool) l :
  (forall x, x ∈ l -> f x = true -> g x = true) -> (count_if f l <= count_if g l)%nat.
Proof.
  unfold count_if. induction l as [|x l IH]; intros H; simpl; [done|].
  assert (length (List.filter f l) <= length (List.filter g l))%nat as IH'.
  { apply IH. intros y Hy. apply H. by right. }
  destruct (f x) eqn:Hf.
  - rewrite (H x) by (done || left). simpl. lia.
  - destruct (g x); simpl; lia.
Qed.

Lemma count_if_pos {A} (f : A -> bool) l x :
  x ∈ l -> f x = true -> (0 < count_if f l)%nat.
Proof.
  unfold count_if. induction l as [|y l IH]; intros Hin Hf.
  - by apply elem_of_nil in Hin.
  - simpl. apply elem_of_cons in Hin as [->|Hin].
    + rewrite Hf. simpl. lia.
    + destruct (f y); simpl; [lia|]. by apply IH.
Qed.

(** ** The shape of the counted n-grams *)

Lemma elem_of_py_range i k : i ∈ py_range k <-> 0 <= i < k.
Proof.
  unfold py_range. rewrite list_elem_of_fmap. split.
  - intros (j & -> & Hj). apply elem_of_seq in Hj. lia.
  - intros H. exists (Z.to_nat i). split; [lia|]. apply elem_of_seq. lia.
Qed.

Lemma ngrams_length n padded g :
  0 <= n -> g ∈ ngrams n padded -> length g = Z.to_nat n.
Proof.
  intros Hn Hg. unfold ngrams in Hg.
  apply list_elem_of_fmap in Hg as (i & -> & Hi). apply elem_of_py_range in Hi.
  unfold py_slice, slice_index, len in *.
  assert ((i <? 0) = false) as -> by lia.
  assert ((i + n <? 0) = false) as -> by lia.
  rewrite length_take, length_drop. lia.
Qed.

Lemma trained_ngrams_length n tokens g :
  0 <= n -> g ∈ trained_ngrams n tokens -> length g = Z.to_nat n.
Proof.
  intros Hn Hg. unfold trained_ngrams in Hg.
  apply list_elem_of_bind in Hg as (w & Hg & _). by eapply ngrams_length.
Qed.

(** On a string of length [n], [g[0:n-1]] and [g[:-1]] are the same slice. *)
Lemma slice_order_prefix n (g : str) :
  0 <= n -> length g = Z.to_nat n -> py_slice g 0 (n - 1) = prefix_of g.
Proof.
  intros Hn Hg. unfold prefix_of, py_slice, slice_index, len. rewrite Hg.
  destruct (decide (n = 0)) as [->|Hn0].
  - destruct g; [reflexivity | discriminate].
  - assert ((n - 1 <? 0) = false) as -> by lia.
    simpl. f_equal. lia.
Qed.

Lemma trained_word_ngram corpus n w g :
  w ∈ split corpus -> g ∈ ngrams n (pad n w) ->
  g ∈ trained_ngrams n (split corpus).
Proof.
  intros Hw Hg. unfold trained_ngrams. apply list_elem_of_bind. eauto.
Qed.

(** Every n-gram of a trained word, and its prefix, has been counted. *)
Lemma trained_word_counts_pos corpus n w g :
  w ∈ split corpus -> g ∈ ngrams n (pad n w) ->
  (0 < get0 (ngram_counts (_train (untrained n) corpus)) g)%nat
  /\ (0 < get0 (prefix_counts (_train (untrained n) corpus)) (prefix_of g))%nat.
Proof.
  intros Hw Hg. rewrite trained_ngram_count, trained_prefix_count.
  pose proof (trained_word_ngram corpus n w g Hw Hg) as Hin.
  split; eapply count_if_pos; eauto; by apply bool_decide_eq_true.
Qed.

(** ** Probabilities *)

Lemma py_truediv_pos a b : 0 < a -> 0 < b -> (0 < py_truediv a b)%Q.
Proof.
  intros Ha Hb. unfold py_truediv. rewrite Qred_correct.
  unfold Qdiv. apply Qmult_lt_0_compat.
  - unfold Qlt. simpl. lia.
  - apply Qinv_lt_0_compat. unfold Qlt. simpl. lia.
Qed.

Lemma math_log_pos x : (0 < x)%Q -> math_log x = Returns (LogOf x).
Proof.
  intros Hx. unfold math_log. destruct (Qle_bool x 0) eqn:E; [|done].
  apply Qle_bool_iff in E. exfalso. by apply (Qlt_not_le 0 x).
Qed.

Lemma word_probability_loop_pos self todo acc :
  (forall g, g ∈ todo ->
     (0 < get0 (ngram_counts self) g)%nat
     /\ (0 < get0 (prefix_counts self) (prefix_of g))%nat) ->
  (0 < exp_of acc)%Q ->
  exists q, word_probability_loop self todo acc = Returns q /\ (0 < q)%Q.
Proof.
  revert acc. induction todo as [|g todo IH]; intros acc Hall Hacc; simpl.
  - eauto.
  - destruct (Hall g) as [Hg Hp]; [left|].
    fold (prefix_of g).
    destruct (Nat.eqb_spec (get0 (prefix_counts self) (prefix_of g)) 0) as [E|_]; [lia|].
    rewrite math_log_pos by (apply py_truediv_pos; lia). simpl.
    apply IH.
    + intros g' Hg'. apply Hall. by right.
    + simpl. apply Qmult_lt_0_compat; [done|]. apply py_truediv_pos; lia.
Qed.

(** The loop raises at the first window never counted under a counted prefix,
    provided the windows before it were all counted. *)
Lemma word_probability_loop_raises self seen g todo acc :
  (forall g', g' ∈ seen ->
     (0 < get0 (ngram_counts self) g')%nat
     /\ (0 < get0 (prefix_counts self) (prefix_of g'))%nat) ->
  get0 (ngram_counts self) g = 0%nat ->
  (0 < get0 (prefix_counts self) (prefix_of g))%nat ->
  word_probability_loop self (seen ++ g :: todo) acc = Raises ValueError.
Proof.
  revert acc. induction seen as [|g' seen IH]; intros acc Hseen Hg Hp; simpl.
  - fold (prefix_of g). rewrite Hg.
    destruct (Nat.eqb_spec (get0 (prefix_counts self) (prefix_of g)) 0) as [E|_]; [lia|].
    reflexivity.
  - destruct (Hseen g') as [Hg' Hp']; [left|].
    fold (prefix_of g').
    destruct (Nat.eqb_spec (get0 (prefix_counts self) (prefix_of g')) 0) as [E|_]; [lia|].
    rewrite math_log_pos by (apply py_truediv_pos; lia). simpl.
    apply IH; [|done..]. intros x Hx. apply Hseen. by right.
Qed.

(** A word of the corpus is scored without error, and its score is positive. *)
Lemma trained_word_probability corpus n w :
  w ∈ split corpus ->
  exists q, _word_probability (_train (untrained n) corpus) w = Returns q /\ (0 < q)%Q.
Proof.
  intros Hw. unfold _word_probability. rewrite trained_self_n.
  apply word_probability_loop_pos; [|reflexivity].
  intros g Hg. by eapply trained_word_counts_pos.
Qed.

(** ** Maximum and stable sort by key *)

Lemma Qgt_bool_true a b : Qgt_bool a b = true <-> (b < a)%Q.
Proof.
  unfold Qgt_bool. rewrite negb_true_iff. split.
  - intros E. apply Qnot_le_lt. intros H. apply Qle_bool_iff in H. congruence.
  - intros H. destruct (Qle_bool a b) eqn:E; [|done].
    apply Qle_bool_iff in E. exfalso. by apply (Qlt_not_le b a).
Qed.

Lemma Qgt_bool_false a b : Qgt_bool a b = false <-> (a <= b)%Q.
Proof.
  unfold Qgt_bool. rewrite negb_false_iff. apply Qle_bool_iff.
Qed.

Lemma elem_of_bfilter {A} (f : A -> bool) l x :
  x ∈ List.filter f l <-> x ∈ l /\ f x = true.
Proof. rewrite !list_elem_of_In. apply filter_In. Qed.

Section Keyed.

Variable key : str -> result Q.
Variable f : str -> Q.

Lemma mapM_total l :
  (forall x, x ∈ l -> key x = Returns (f x)) -> mapM key l = Returns (f <$> l).
Proof.
  induction l as [|x l IH]; intros H; simpl; [done|].
  rewrite (H x) by left. simpl. rewrite IH; [done|].
  intros y Hy. apply H. by right.
Qed.

Lemma max_loop_total l m :
  (forall x, x ∈ l -> key x = Returns (f x)) ->
  max_loop key m (f m) l = Returns (max_by f m l).
Proof.
  revert m. induction l as [|x l IH]; intros m H; simpl; [done|].
  rewrite (H x) by left. simpl.
  destruct (Qgt_bool (f x) (f m)); apply IH; intros y Hy; apply H; by right.
Qed.

Lemma py_max_total x l :
  (forall y, y ∈ x :: l -> key y = Returns (f y)) ->
  py_max key (x :: l) = Returns (max_by f x l).
Proof.
  intros H. simpl. rewrite (H x) by left. simpl.
  apply max_loop_total. intros y Hy. apply H. by right.
Qed.

Local Abbreviation tag := (tag_key f).
Local Abbreviation key_ge := (key_ge f).

Lemma insert_desc_tag x l :
  insert_desc (tag x) (tag <$> l) = tag <$> insert_by f x l.
Proof.
  induction l as [|y l IH]; [done|].
  rewrite fmap_cons. cbn [insert_desc insert_by tag_key fst].
  destruct (Qgt_bool (f y) (f x)); [|done].
  rewrite fmap_cons. f_equal. apply IH.
Qed.

Lemma sort_tagged l : foldr insert_desc [] (tag <$> l) = tag <$> sort_by f l.
Proof.
  induction l as [|x l IH]; [done|].
  rewrite fmap_cons. cbn [foldr sort_by]. fold (sort_by f l).
  rewrite IH. apply insert_desc_tag.
Qed.

Lemma zip_tag l : zip (f <$> l) l = tag <$> l.
Proof. induction l as [|x l IH]; [done|]. rewrite !fmap_cons. cbn [zip zip_with]. by rewrite IH. Qed.

Lemma py_sort_reverse_total l :
  (forall x, x ∈ l -> key x = Returns (f x)) ->
  py_sort_reverse key l = Returns (sort_by f l).
Proof.
  intros H. unfold py_sort_reverse. rewrite mapM_total by done. simpl.
  rewrite zip_tag, sort_tagged. f_equal.
  rewrite <- list_fmap_compose. apply list_fmap_id.
Qed.

Lemma insert_by_perm x l : insert_by f x l ≡ₚ x :: l.
Proof.
  induction l as [|y l IH]; simpl; [done|].
  destruct (Qgt_bool (f y) (f x)); [|done].
  rewrite IH. apply Permutation_swap.
Qed.

Lemma sort_by_perm l : sort_by f l ≡ₚ l.
Proof.
  induction l as [|x l IH]; simpl; [done|].
  rewrite insert_by_perm. by rewrite IH.
Qed.

Lemma insert_by_sorted x l :
  StronglySorted key_ge l -> StronglySorted key_ge (insert_by f x l).
Proof.
  induction l as [|y l IH]; intros Hs; simpl.
  - repeat constructor.
  - apply StronglySorted_inv in Hs as [Hs Hy].
    destruct (Qgt_bool (f y) (f x)) eqn:E.
    + constructor; [by apply IH|].
      rewrite insert_by_perm. constructor; [|done].
      apply Qgt_bool_true in E. by apply Qlt_le_weak.
    + apply Qgt_bool_false in E. constructor; [by constructor|].
      constructor; [done|].
      eapply Forall_impl; [exact Hy|]. intros z Hz. unfold key_ge in *.
      by apply (Qle_trans _ (f y)).
Qed.

Lemma sort_by_sorted l : StronglySorted key_ge (sort_by f l).
Proof.
  induction l as [|x l IH]; simpl; [constructor|]. by apply insert_by_sorted.
Qed.

(** The first maximum: everything before it scores strictly less, everything
    after it scores at most as much. *)
Lemma max_by_split x l :
  exists l1 l2, x :: l = l1 ++ max_by f x l :: l2
    /\ (forall y, y ∈ l1 -> (f y < f (max_by f x l))%Q)
    /\ (forall y, y ∈ l2 -> (f y <= f (max_by f x l))%Q).
Proof.
  revert x. induction l as [|item l IH]; intros x; simpl.
  - exists [], []. split; [done|]. split; intros y Hy; by apply elem_of_nil in Hy.
  - destruct (Qgt_bool (f item) (f x)) eqn:E.
    + apply Qgt_bool_true in E.
      destruct (IH item) as (l1 & l2 & Heq & H1 & H2).
      exists (x :: l1), l2. split; [by rewrite Heq|]. split; [|done].
      intros y Hy. apply elem_of_cons in Hy as [->|Hy]; [|by apply H1].
      apply (Qlt_le_trans _ (f item)); [done|].
      assert (item ∈ l1 ++ max_by f item l :: l2) as Hin by (rewrite <- Heq; left).
      apply elem_of_app in Hin as [Hin|Hin].
      * apply Qlt_le_weak. by apply H1.
      * apply elem_of_cons in Hin as [<-|Hin]; [apply Qle_refl | by apply H2].
    + apply Qgt_bool_false in E.
      destruct (IH x) as (l1 & l2 & Heq & H1 & H2).
      destruct l1 as [|x' l1]; simpl in Heq.
      * injection Heq as Hx Hl. exists [], (item :: l2).
        split; [simpl; by rewrite <- Hx, Hl|].
        split; [intros y Hy; by apply elem_of_nil in Hy|].
        intros y Hy. apply elem_of_cons in Hy as [->|Hy]; [|by apply H2].
        by rewrite <- Hx.
      * injection Heq as Hx Hl. subst x'. exists (x :: item :: l1), l2.
        split; [simpl; do 2 f_equal; exact Hl|]. split; [|done].
        intros y Hy. apply elem_of_cons in Hy as [->|Hy]; [apply H1; left|].
        apply elem_of_cons in Hy as [->|Hy]; [|apply H1; by right].
        apply (Qle_lt_trans _ (f x)); [done|]. apply H1. left.
Qed.

Lemma insert_by_head_max w l :
  (forall y, y ∈ l -> (f y <= f w)%Q) -> insert_by f w l = w :: l.
Proof.
  intros H. destruct l as [|y l]; simpl; [done|].
  assert (Qgt_bool (f y) (f w) = false) as ->; [|done].
  apply Qgt_bool_false. apply H. left.
Qed.

Lemma insert_by_under_head x w l :
  (f x < f w)%Q -> insert_by f x (w :: l) = w :: insert_by f x l.
Proof.
  intros H. simpl.
  assert (Qgt_bool (f w) (f x) = true) as ->; [|done]. by apply Qgt_bool_true.
Qed.

(** The stable descending sort starts with the first maximum. *)
Lemma sort_by_head l1 w l2 :
  (forall y, y ∈ l1 -> (f y < f w)%Q) ->
  (forall y, y ∈ l2 -> (f y <= f w)%Q) ->
  exists rest, sort_by f (l1 ++ w :: l2) = w :: rest.
Proof.
  intros H1 H2. unfold sort_by. rewrite foldr_app. simpl.
  rewrite insert_by_head_max.
  2:{ intros y Hy. apply H2. by rewrite <- (sort_by_perm l2). }
  induction l1 as [|x l1 IH]; simpl; [eauto|].
  destruct IH as (rest & ->); [intros y Hy; apply H1; by right|].
  rewrite insert_by_under_head by (apply H1; left). eauto.
Qed.

End Keyed.

(** ** The vocabulary of a trained model *)

Lemma elem_of_words_add x w ws : x ∈ words_add w ws <-> x ∈ ws \/ x = w.
Proof.
  unfold words_add. case_bool_decide as Hw.
  - split; [by left|]. intros [H| ->]; done.
  - rewrite elem_of_app, list_elem_of_singleton. done.
Qed.


Lemma elem_of_foldl_words_add x tokens ws :
  x ∈ foldl (fun ws w => words_add w ws) ws tokens <-> x ∈ ws \/ x ∈ tokens.
Proof.
  revert ws. induction tokens as [|w tokens IH]; intros ws; simpl.
  - rewrite elem_of_nil. tauto.
  - rewrite IH, elem_of_words_add, elem_of_cons. tauto.
Qed.


Lemma trained_words corpus n x :
  x ∈ words (_train (untrained n) corpus) <-> x ∈ split corpus.
Proof.
  unfold _train. rewrite foldl_train_word. simpl.
  rewrite elem_of_foldl_words_add, elem_of_nil. tauto.
Qed.


Lemma trained_prob_of corpus n w :
  w ∈ split corpus ->
  _word_probability (_train (untrained n) corpus) w
  = Returns (prob_of (_train (untrained n) corpus) w)
  /\ (0 < prob_of (_train (untrained n) corpus) w)%Q.
Proof.
  intros Hw. destruct (trained_word_probability corpus n w Hw) as (q & Hq & Hpos).
  unfold prob_of. by rewrite Hq.
Qed.

(** ** Slices from the start *)

Lemma py_slice_0 {A} (l : list A) k : 0 <= k -> py_slice l 0 k = take (Z.to_nat k) l.
Proof.
  intros Hk. unfold py_slice, slice_index, len.
  assert ((k <? 0) = false) as -> by lia.
  assert ((0 <? 0) = false) as -> by lia.
  assert (Z.min 0 (Z.of_nat (length l)) = 0) as -> by lia.
  rewrite Z.sub_0_r. change (Z.to_nat 0) with 0%nat. rewrite drop_0.
  destruct (decide (k <= Z.of_nat (length l))) as [Hle|Hgt].
  - f_equal. lia.
  - rewrite !take_ge by lia. done.
Qed.

Lemma StronglySorted_take {A} (R : A -> A -> Prop) k l :
  StronglySorted R l -> StronglySorted R (take k l).
Proof.
  intros Hs. rewrite <- (take_drop k l) in Hs. by apply StronglySorted_app_1_l in Hs.
Qed.

Lemma elem_of_take_1 {A} (x : A) k l : x ∈ take k l -> x ∈ l.
Proof.
  intros Hx. rewrite <- (take_drop k l). apply elem_of_app. by left.
Qed.

(** ** The two queries on any model and on a trained one *)

Section VocabularyOrder.

Variable set_iter : list str -> list str.
Hypothesis set_iter_perm : forall ws, set_iter ws ≡ₚ ws.

Lemma elem_of_candidates_for self p w :
  w ∈ candidates_for set_iter self p <-> w ∈ words self /\ startswith w p = true.
Proof.
  unfold candidates_for. rewrite elem_of_bfilter. by rewrite set_iter_perm.
Qed.

Lemma trained_candidate_scored corpus n p w :
  w ∈ candidates_for set_iter (_train (untrained n) corpus) p ->
  _word_probability (_train (untrained n) corpus) w
  = Returns (prob_of (_train (untrained n) corpus) w).
Proof.
  intros Hw. apply elem_of_candidates_for in Hw as [Hw _].
  apply trained_words in Hw. by apply trained_prob_of.
Qed.

(** On a trained model the ranking never raises. *)
Lemma trained_predict_top_words corpus n p k :
  let M := _train (untrained n) corpus in
  predict_top_words set_iter M p k
  = Returns (py_slice (sort_by (prob_of M) (candidates_for set_iter M p)) 0 k).
Proof.
  intros M. unfold predict_top_words.
  destruct (candidates_for set_iter M p) as [|c cs] eqn:E.
  - simpl. unfold py_slice. by rewrite drop_nil, take_nil.
  - rewrite (py_sort_reverse_total _ (prob_of M)); [done|].
    intros x Hx. rewrite <- E in Hx. by eapply trained_candidate_scored.
Qed.

(** On a trained model the best guess never raises. *)
Lemma trained_generate_word corpus n p :
  let M := _train (untrained n) corpus in
  _generate_word set_iter M p
  = Returns match candidates_for set_iter M p with
            | [] => p
            | c :: cs => max_by (prob_of M) c cs
            end.
Proof.
  intros M. unfold _generate_word.
  destruct (candidates_for set_iter M p) as [|c cs] eqn:E; [done|].
  apply py_max_total. intros x Hx. rewrite <- E in Hx.
  by eapply trained_candidate_scored.
Qed.

Lemma key_ge_prob_ge corpus n p l :
  let M := _train (untrained n) corpus in
  (forall w, w ∈ l -> w ∈ candidates_for set_iter M p) ->
  StronglySorted (key_ge (prob_of M)) l -> StronglySorted (prob_ge M) l.
Proof.
  intros M Hin Hs. induction Hs as [|x l Hs IH Hx]; [constructor|].
  constructor.
  - apply IH. intros w Hw. apply Hin. by right.
  - apply Forall_forall. intros y Hy.
    exists (prob_of M x), (prob_of M y). split_and!.
    + eapply trained_candidate_scored, Hin. left.
    + eapply trained_candidate_scored, Hin. by right.
    + rewrite Forall_forall in Hx. by apply Hx.
Qed.

End VocabularyOrder.

Lemma init_trained corpus n M :
  __init__ corpus n = Returns M -> M = _train (untrained n) corpus.
Proof. unfold __init__. by intros [= <-]. Qed.

(** * The claims *)

(** ** Scoring a word *)

(** C1 (the code deviates). On the model trained on ["ab"] with [n = 2], the
    word ["b"] has first window ["#b"], never counted, whose prefix ["#"] was
    counted once: [_word_probability] computes [0 / 1], hands [0.0] to
    [math.log] and raises [ValueError] where the claim requires the value
    [0.0]. *)
Theorem word_probability_unseen_ngram_raises :
  exists M, __init__ (s "ab") 2 = Returns M
    /\ get0 (ngram_counts M) (s "#b") = 0%nat
    /\ get0 (prefix_counts M) (prefix_of (s "#b")) = 1%nat
    /\ _word_probability M (s "b") = Raises ValueError.
Proof. eexists. split; [reflexivity|]. by vm_compute. Qed.



(** ** Construction *)



(** ** The invariant of the two dictionaries *)

(** C4. After training with an order [n >= 0] (so for every order the data
    model allows), [prefix_counts[g[0:n-1]] >= ngram_counts[g]] for every
    n-gram [g] (those never counted have count 0), and [prefix_counts[p]] is
    the sum of [ngram_counts[g]] over the counted [g] with [g[0:n-1] == p]. *)
Theorem trained_counts_invariant corpus n M :
  0 <= n ->
  __init__ corpus n = Returns M ->
  (forall g, (get0 (ngram_counts M) g <= get0 (prefix_counts M) (py_slice g 0 (n - 1)))%nat)
  /\ (forall p, get0 (prefix_counts M) p
        = sum_counts (fun g => bool_decide (py_slice g 0 (n - 1) = p)) (ngram_counts M)).
Proof.
  intros Hn HM. apply init_trained in HM as ->. split.
  - intros g. rewrite trained_ngram_count, trained_prefix_count.
    apply count_if_le. intros x Hx Hxg.
    apply bool_decide_eq_true in Hxg as ->. apply bool_decide_eq_true.
    symmetry. apply slice_order_prefix; [done|]. by eapply trained_ngrams_length.
  - intros p. rewrite trained_prefix_count, trained_sum_counts.
    apply count_if_ext. intros x Hx.
    rewrite slice_order_prefix; [done..|]. by eapply trained_ngrams_length.
Qed.

(** With a negative order the slices [g[0:n-1]] and [g[:-1]] part ways: for
    [n = -1] the word ["abc"] is counted once as an n-gram, under the prefix
    ["ab"], while ["abc"[0:-2]] is ["a"]. *)
Example negative_order_counts :
  exists M, __init__ (s "abc") (-1) = Returns M
    /\ get0 (ngram_counts M) (s "abc") = 1%nat
    /\ get0 (prefix_counts M) (py_slice (s "abc") 0 (-1 - 1)) = 0%nat.
Proof. eexists. split; [reflexivity|]. by vm_compute. Qed.

Lemma trained_counts_invariant_witness :
  0 <= 2
  /\ __init__ cat_corpus 2 = Returns cat_model
  /\ (forall g, (get0 (ngram_counts cat_model) g
                 <= get0 (prefix_counts cat_model) (py_slice g 0 (2 - 1)))%nat)
  /\ (forall p, get0 (prefix_counts cat_model) p
        = sum_counts (fun g => bool_decide (py_slice g 0 (2 - 1) = p))
            (ngram_counts cat_model)).
Proof.
  split; [lia|]. split; [reflexivity|].
  apply (trained_counts_invariant cat_corpus 2); [lia | reflexivity].
Defined.

(** ** Ranked completions and the best guess *)

Section RankedQueries.

Variable set_iter : list str -> list str.
Hypothesis set_iter_perm : forall ws, set_iter ws ≡ₚ ws.

(** C5. On a trained model and for [k >= 0], [predict_top_words(p, k)] returns
    a list of vocabulary words that start with [p], sorted by non-increasing
    probability, of length at most [k] and at most the number of candidates,
    and empty when [k = 0]. *)
Theorem predict_top_words_ranked corpus n M p k :
  __init__ corpus n = Returns M ->
  0 <= k ->
  exists l, predict_top_words set_iter M p k = Returns l
    /\ (forall w, w ∈ l -> w ∈ words M /\ startswith w p = true)
    /\ StronglySorted (prob_ge M) l
    /\ len l <= k
    /\ (length l <= length (candidates_for set_iter M p))%nat
    /\ (k = 0 -> l = []).
Proof.
  intros HM Hk. apply init_trained in HM as ->.
  set (M := _train (untrained n) corpus).
  set (sorted := sort_by (prob_of M) (candidates_for set_iter M p)).
  exists (take (Z.to_nat k) sorted).
  assert (forall w, w ∈ take (Z.to_nat k) sorted -> w ∈ candidates_for set_iter M p) as Hin.
  { intros w Hw. apply elem_of_take_1 in Hw. unfold sorted in Hw.
    by rewrite sort_by_perm in Hw. }
  split_and!.
  - unfold M. rewrite trained_predict_top_words by done. by rewrite py_slice_0.
  - intros w Hw. by apply (elem_of_candidates_for set_iter), Hin.
  - eapply key_ge_prob_ge; [done|exact Hin|].
    apply StronglySorted_take, sort_by_sorted.
  - unfold len. rewrite length_take. lia.
  - rewrite length_take. unfold sorted.
    rewrite (Permutation_length (sort_by_perm _ _)). lia.
  - intros ->. reflexivity.
Qed.

(** C6. When no vocabulary word starts with [p], which includes every query
    on an empty vocabulary, [predict_top_words(p, k)] returns the empty list
    and [_generate_word(p)] returns [p]; neither raises. This holds for every
    model, trained or not. *)
Theorem no_match_degrades (M : NgramCharacterModel) p k :
  (forall w, w ∈ words M -> startswith w p = false) ->
  predict_top_words set_iter M p k = Returns []
  /\ _generate_word set_iter M p = Returns p.
Proof.
  intros Hno.
  assert (candidates_for set_iter M p = []) as E.
  { apply elem_of_nil_inv. intros w Hw.
    apply elem_of_candidates_for in Hw as [Hw Hp]; [|done].
    rewrite (Hno w Hw) in Hp. discriminate. }
  unfold predict_top_words, _generate_word. by rewrite E.
Qed.

(** C10. On a trained model, when some vocabulary word starts with [p] and
    [k >= 1], [_generate_word(p)] is the first element of
    [predict_top_words(p, k)]; it is the candidate that comes first in the
    iteration order of the vocabulary among those of maximal probability:
    the candidates before it score strictly less, those after it at most as
    much. *)
Theorem generate_word_heads_top_words corpus n M p k :
  __init__ corpus n = Returns M ->
  (exists w, w ∈ words M /\ startswith w p = true) ->
  1 <= k ->
  exists best rest before after,
    _generate_word set_iter M p = Returns best
    /\ predict_top_words set_iter M p k = Returns (best :: rest)
    /\ candidates_for set_iter M p = before ++ best :: after
    /\ (forall w, w ∈ before -> prob_lt M w best)
    /\ (forall w, w ∈ after -> prob_ge M best w).
Proof.
  intros HM (w0 & Hw0 & Hp0) Hk. apply init_trained in HM as ->.
  set (M := _train (untrained n) corpus) in *.
  assert (w0 ∈ candidates_for set_iter M p) as Hc
    by by apply elem_of_candidates_for.
  assert (forall w, w ∈ candidates_for set_iter M p ->
            _word_probability M w = Returns (prob_of M w)) as Hscored
    by (intros w Hw; by eapply trained_candidate_scored).
  unfold M. rewrite trained_generate_word, trained_predict_top_words by done.
  fold M. rewrite py_slice_0 by lia.
  destruct (candidates_for set_iter M p) as [|c cs] eqn:E;
    [by apply elem_of_nil in Hc|].
  destruct (max_by_split (prob_of M) c cs) as (l1 & l2 & Heq & H1 & H2).
  destruct (sort_by_head (prob_of M) l1 (max_by (prob_of M) c cs) l2 H1 H2)
    as (rest & Hsort).
  assert (max_by (prob_of M) c cs ∈ c :: cs) as Hbest.
  { rewrite Heq. apply elem_of_app. right. left. }
  exists (max_by (prob_of M) c cs), (take (Z.to_nat k - 1) rest), l1, l2.
  split_and!.
  - done.
  - rewrite Heq, Hsort. f_equal.
    replace (Z.to_nat k) with (S (Z.to_nat k - 1)) by lia. simpl.
    f_equal. f_equal. lia.
  - done.
  - intros w Hw. exists (prob_of M w), (prob_of M (max_by (prob_of M) c cs)).
    split_and!; [apply Hscored| by apply Hscored | by apply H1].
    rewrite Heq. apply elem_of_app. by left.
  - intros w Hw. exists (prob_of M (max_by (prob_of M) c cs)), (prob_of M w).
    split_and!; [by apply Hscored | apply Hscored | by apply H2].
    rewrite Heq. apply elem_of_app. right. by right.
Qed.

End RankedQueries.

(** Reversal is one possible iteration order. *)
Lemma rev_iter_perm (ws : list str) : rev ws ≡ₚ ws.
Proof. symmetry. apply Permutation_rev. Qed.

Lemma predict_top_words_ranked_witness :
  (forall ws : list str, rev ws ≡ₚ ws)
  /\ __init__ cat_corpus 2 = Returns cat_model
  /\ 0 <= 2
  /\ exists l, predict_top_words (@rev str) cat_model (s "ca") 2 = Returns l
       /\ (forall w, w ∈ l -> w ∈ words cat_model /\ startswith w (s "ca") = true)
       /\ StronglySorted (prob_ge cat_model) l
       /\ len l <= 2
       /\ (length l <= length (candidates_for (@rev str) cat_model (s "ca")))%nat
       /\ (2 = 0 -> l = []).
Proof.
  split; [exact rev_iter_perm|]. split; [reflexivity|]. split; [lia|].
  apply (predict_top_words_ranked (@rev str) rev_iter_perm cat_corpus 2);
    [reflexivity | lia].
Defined.

Lemma no_match_degrades_witness :
  (forall ws : list str, rev ws ≡ₚ ws)
  /\ (forall w, w ∈ words cat_model -> startswith w (s "dog") = false)
  /\ predict_top_words (@rev str) cat_model (s "dog") 10 = Returns []
  /\ _generate_word (@rev str) cat_model (s "dog") = Returns (s "dog").
Proof.
  assert (forall w, w ∈ words cat_model -> startswith w (s "dog") = false) as Hno.
  { intros w Hw. apply list_elem_of_In in Hw. vm_compute in Hw.
    destruct Hw as [<-|[<-|[<-|[]]]]; reflexivity. }
  split; [exact rev_iter_perm|]. split; [exact Hno|].
  apply (no_match_degrades (@rev str) rev_iter_perm cat_model (s "dog") 10 Hno).
Defined.

Lemma generate_word_heads_top_words_witness :
  (forall ws : list str, rev ws ≡ₚ ws)
  /\ __init__ cat_corpus 2 = Returns cat_model
  /\ (exists w, w ∈ words cat_model /\ startswith w (s "ca") = true)
  /\ 1 <= 3
  /\ exists best rest before after,
       _generate_word (@rev str) cat_model (s "ca") = Returns best
       /\ predict_top_words (@rev str) cat_model (s "ca") 3 = Returns (best :: rest)
       /\ candidates_for (@rev str) cat_model (s "ca") = before ++ best :: after
       /\ (forall w, w ∈ before -> prob_lt cat_model w best)
       /\ (forall w, w ∈ after -> prob_ge cat_model best w).
Proof.
  assert (exists w, w ∈ words cat_model /\ startswith w (s "ca") = true) as Hex.
  { exists (s "cat"). split; [|reflexivity].
    apply list_elem_of_In. vm_compute. tauto. }
  split; [exact rev_iter_perm|]. split; [reflexivity|].
  split; [exact Hex|]. split; [lia|].
  apply (generate_word_heads_top_words (@rev str)
           rev_iter_perm cat_corpus 2 cat_model (s "ca") 3);
    [reflexivity | exact Hex | lia].
Defined.

(** ** The edit session *)

(** *** Splitting and stripping *)

Lemma split_lstrip t : split (lstrip t) = split t.
Proof.
  unfold split. induction t as [|c t IH]; simpl; [done|].
  destruct (isspace c) eqn:E; [done|]. simpl. by rewrite E.
Qed.

Lemma split_from_snoc_space cur t c :
  isspace c = true -> split_from cur (t ++ [c]) = split_from cur t.
Proof.
  intros Hc. revert cur. induction t as [|a t IH]; intros cur; simpl.
  - rewrite Hc. by destruct cur.
  - destruct (isspace a); [|apply IH]. destruct cur; by rewrite IH.
Qed.

Lemma split_rstrip t : split (rstrip t) = split t.
Proof.
  unfold rstrip. induction t as [|c t IH] using rev_ind; [done|].
  rewrite rev_app_distr. simpl. destruct (isspace c) eqn:E.
  - rewrite IH. unfold split. by rewrite split_from_snoc_space.
  - simpl. by rewrite rev_involutive.
Qed.

(** [text.strip().split()] and [text.split()] are the same list of words. *)
Lemma split_strip t : split (strip t) = split t.
Proof. unfold strip. by rewrite split_lstrip, split_rstrip. Qed.

(** *** Metrics *)

(** C9. [calculate_scores] returns the two counters followed by the two
    averages; each average is its counter divided by the number of
    whitespace-delimited words of the text, both are exactly [0.0] when the
    text has no word, and counters 6 and 2 over two words give [3.0] and
    [1.0]. *)
Theorem calculate_scores_metrics (u : TerminalUI) (text : str) :
  exists avg_letters avg_tabs,
    calculate_scores u text
    = [ PyInt (Z.of_nat (total_letter_keys_typed u));
        PyInt (Z.of_nat (total_tab_key_presses u));
        PyFloat avg_letters; PyFloat avg_tabs ]
    /\ (0 < len (split text) ->
        (avg_letters == inject_Z (Z.of_nat (total_letter_keys_typed u))
                        / inject_Z (len (split text)))%Q
        /\ (avg_tabs == inject_Z (Z.of_nat (total_tab_key_presses u))
                        / inject_Z (len (split text)))%Q)
    /\ (len (split text) = 0 -> avg_letters = 0%Q /\ avg_tabs = 0%Q)
    /\ (total_letter_keys_typed u = 6%nat -> total_tab_key_presses u = 2%nat ->
        len (split text) = 2 ->
        avg_letters = 3%Q /\ avg_tabs = 1%Q).
Proof.
  unfold calculate_scores. rewrite split_strip.
  do 2 eexists. split; [reflexivity|]. split_and!.
  - intros Hpos. apply Z.ltb_lt in Hpos. rewrite Hpos.
    unfold py_truediv. split; apply Qred_correct.
  - intros ->. done.
  - intros -> -> ->. done.
Qed.

Lemma calculate_scores_metrics_witness :
  len (split (user_input two_word_session)) = 2
  /\ calculate_scores two_word_session (user_input two_word_session)
     = [PyInt 6; PyInt 2; PyFloat 3; PyFloat 1].
Proof.
  split; [reflexivity|].
  destruct (calculate_scores_metrics two_word_session (user_input two_word_session))
    as (al & at' & Heq & _ & _ & H).
  rewrite Heq.
  destruct (H eq_refl eq_refl eq_refl) as [-> ->]. reflexivity.
Defined.

(** Six printable keys forming two words, then two tab presses. The space
    bar is one of the keys counted by [total_letter_keys_typed]. *)
Example session_metrics_six_keys :
  exists u, run (fun ws => ws) (TerminalUI_init cat_model)
              (keys_of "ab cde" ++ [9; 9]) = Returns u
    /\ user_input u = s "ab cde"
    /\ calculate_scores u (user_input u) = [PyInt 6; PyInt 2; PyFloat 3; PyFloat 1].
Proof. eexists. split; [by vm_compute|]. split; by vm_compute. Qed.

(** *** Key dispatch *)

Section KeyDispatch.

Variable set_iter : list str -> list str.

Lemma handle_input_quit u : handle_input set_iter u 27 = Returns (u, false).
Proof. reflexivity. Qed.

Lemma handle_input_left u :
  handle_input set_iter u KEY_LEFT
  = if 0 <? cursor_pos u then
      let* self2 := refresh_suggestions set_iter (set_cursor_pos u (cursor_pos u - 1)) in
      Returns (self2, true)
    else Returns (u, true).
Proof. reflexivity. Qed.

Lemma handle_input_right u :
  handle_input set_iter u KEY_RIGHT
  = if cursor_pos u <? len (user_input u) then
      let* self2 := refresh_suggestions set_iter (set_cursor_pos u (cursor_pos u + 1)) in
      Returns (self2, true)
    else Returns (u, true).
Proof. reflexivity. Qed.

(** C8 (amended). ESC changes nothing in the object and makes [handle_input]
    return [False], which ends the loop of [run]: whatever keys follow in the
    input, none of them is read or dispatched, and the session ends in the
    state reached before ESC. *)
Theorem quit_ends_run u pre post :
  handle_input set_iter u 27 = Returns (u, false)
  /\ run set_iter u (pre ++ 27 :: post) = run set_iter u pre.
Proof.
  split; [reflexivity|].
  revert u. induction pre as [|key pre IH]; intros u; [reflexivity|].
  cbn [app run].
  destruct (handle_input set_iter u key) as [[u' running]|e]; [|reflexivity].
  cbn [bind snd fst]. destruct running; [apply IH | reflexivity].
Qed.

Hypothesis set_iter_perm : forall ws, set_iter ws ≡ₚ ws.

(** On a trained model, recomputing the suggestions never raises. *)
Lemma trained_refresh_suggestions corpus n u :
  prediction_model u = _train (untrained n) corpus ->
  exists l,
    predict_top_words set_iter (prediction_model u) (get_current_word u) 10 = Returns l
    /\ refresh_suggestions set_iter u
       = Returns {| suggestions := l;
                    current_suggestion_idx := 0;
                    scores := scores u;
                    user_input := user_input u;
                    cursor_pos := cursor_pos u;
                    prediction_model := prediction_model u;
                    total_letter_keys_typed := total_letter_keys_typed u;
                    total_tab_key_presses := total_tab_key_presses u |}.
Proof.
  intros HM. unfold refresh_suggestions. rewrite HM.
  rewrite trained_predict_top_words by done.
  eexists. split; reflexivity.
Qed.

(** C7 (amended). With the cursor inside [0, len(buffer)], the left and right
    arrows move it by one, clamped to that range, and leave the buffer and
    the counters alone. When the cursor does move, the suggestions are
    recomputed from the word now before the cursor and the cycle index is
    reset to 0; when the cursor is already at the boundary the key changes
    nothing at all. *)
Theorem move_cursor_clamped corpus n M u :
  __init__ corpus n = Returns M ->
  prediction_model u = M ->
  0 <= cursor_pos u <= len (user_input u) ->
  (exists u', handle_input set_iter u KEY_LEFT = Returns (u', true)
     /\ cursor_pos u' = Z.max 0 (cursor_pos u - 1)
     /\ user_input u' = user_input u
     /\ total_letter_keys_typed u' = total_letter_keys_typed u
     /\ total_tab_key_presses u' = total_tab_key_presses u
     /\ (0 < cursor_pos u ->
         current_suggestion_idx u' = 0
         /\ predict_top_words set_iter M (get_current_word u') 10
            = Returns (suggestions u'))
     /\ (cursor_pos u = 0 -> u' = u))
  /\ (exists u', handle_input set_iter u KEY_RIGHT = Returns (u', true)
     /\ cursor_pos u' = Z.min (len (user_input u)) (cursor_pos u + 1)
     /\ user_input u' = user_input u
     /\ total_letter_keys_typed u' = total_letter_keys_typed u
     /\ total_tab_key_presses u' = total_tab_key_presses u
     /\ (cursor_pos u < len (user_input u) ->
         current_suggestion_idx u' = 0
         /\ predict_top_words set_iter M (get_current_word u') 10
            = Returns (suggestions u'))
     /\ (cursor_pos u = len (user_input u) -> u' = u)).
Proof.
  intros HM Hu Hc. apply init_trained in HM as ->. split.
  - rewrite handle_input_left. destruct (Z.ltb_spec 0 (cursor_pos u)) as [Hlt|Hge].
    + destruct (trained_refresh_suggestions corpus n
                  (set_cursor_pos u (cursor_pos u - 1)) Hu) as (l & Hl & ->).
      eexists. split; [reflexivity|]. cbn [cursor_pos user_input
        total_letter_keys_typed total_tab_key_presses current_suggestion_idx
        suggestions set_cursor_pos].
      split_and!; try done; try lia.
      intros _. split; [done|]. rewrite <- Hl, <- Hu. reflexivity.
    + exists u. split_and!; try done; lia.
  - rewrite handle_input_right.
    destruct (Z.ltb_spec (cursor_pos u) (len (user_input u))) as [Hlt|Hge].
    + destruct (trained_refresh_suggestions corpus n
                  (set_cursor_pos u (cursor_pos u + 1)) Hu) as (l & Hl & ->).
      eexists. split; [reflexivity|]. cbn [cursor_pos user_input
        total_letter_keys_typed total_tab_key_presses current_suggestion_idx
        suggestions set_cursor_pos].
      split_and!; try done; try lia.
      intros _. split; [done|]. rewrite <- Hl, <- Hu. reflexivity.
    + exists u. split_and!; try done; lia.
Qed.

End KeyDispatch.

Lemma move_cursor_clamped_witness :
  (forall ws : list str, rev ws ≡ₚ ws)
  /\ __init__ cat_corpus 2 = Returns cat_model
  /\ prediction_model cat_session = cat_model
  /\ 0 <= cursor_pos cat_session <= len (user_input cat_session)
  /\ (exists u', handle_input (@rev str) cat_session KEY_LEFT = Returns (u', true)
        /\ cursor_pos u' = 2
        /\ current_suggestion_idx u' = 0
        /\ predict_top_words (@rev str) cat_model (get_current_word u') 10
           = Returns (suggestions u'))
  /\ (exists u', handle_input (@rev str) cat_session KEY_RIGHT = Returns (u', true)
        /\ u' = cat_session).
Proof.
  assert (0 <= cursor_pos cat_session <= len (user_input cat_session)) as Hc
    by (vm_compute; split; discriminate).
  destruct (move_cursor_clamped (@rev str) rev_iter_perm cat_corpus 2 cat_model
              cat_session eq_refl eq_refl Hc) as [(uL & HL & HcL & _ & _ & _ & HmL & _)
                                       (uR & HR & _ & _ & _ & _ & _ & HbR)].
  split; [exact rev_iter_perm|]. split; [reflexivity|]. split; [reflexivity|].
  split; [exact Hc|]. split.
  - exists uL. split; [exact HL|]. split; [exact HcL|]. apply HmL. reflexivity.
  - exists uR. split; [exact HR|]. apply HbR. reflexivity.
Defined.

(** C7 (as stated, refuted). After ["c"], left arrow and tab, the cursor is at
    0 with the cycle index at 1: a further left arrow leaves the index at 1
    instead of resetting it. After ["ca"] and ENTER the buffer is ["cat"] with
    the cursor at its end and no suggestion: a right arrow leaves the list
    empty although the word before the cursor has three completions. *)
Lemma arrow_at_boundary_recomputes_nothing :
  (exists u u',
     run (fun ws => ws) (TerminalUI_init cat_model) (keys_of "c" ++ [KEY_LEFT; 9])
     = Returns u
     /\ cursor_pos u = 0
     /\ handle_input (fun ws => ws) u KEY_LEFT = Returns (u', true)
     /\ current_suggestion_idx u' = 1)
  /\ (exists v v',
     run (fun ws => ws) (TerminalUI_init cat_model) (keys_of "ca" ++ [10]) = Returns v
     /\ user_input v = s "cat" /\ cursor_pos v = len (user_input v)
     /\ handle_input (fun ws => ws) v KEY_RIGHT = Returns (v', true)
     /\ suggestions v' = []
     /\ predict_top_words (fun ws => ws) cat_model (get_current_word v') 10
        = Returns [s "cat"; s "cats"; s "catalog"]).
Proof.
  split.
  - do 2 eexists. split; [by vm_compute|]. split; [by vm_compute|].
    split; [by vm_compute|]. by vm_compute.
  - do 2 eexists. split; [by vm_compute|]. split; [by vm_compute|].
    split; [by vm_compute|]. split; [by vm_compute|]. split; by vm_compute.
Qed.

(** C8 (as stated, refuted). [handle_input] keeps no record of ESC: called
    again on the object that ESC left unchanged, with the key ["a"], it
    inserts the character, moves the cursor and counts the key. *)
Lemma key_after_quit_is_processed :
  handle_input (fun ws => ws) (TerminalUI_init cat_model) 27
  = Returns (TerminalUI_init cat_model, false)
  /\ exists u', handle_input (fun ws => ws) (TerminalUI_init cat_model) 97
               = Returns (u', true)
       /\ user_input u' = s "a"
       /\ cursor_pos u' = 1
       /\ total_letter_keys_typed u' = 1%nat
       /\ user_input u' <> user_input (TerminalUI_init cat_model).
Proof.
  split; [reflexivity|].
  eexists. split; [by vm_compute|].
  split; [by vm_compute|]. split; [by vm_compute|]. split; [by vm_compute|].
  by vm_compute.
Qed.

(** * Further properties of the code *)

(** ** Slices and runs *)

Lemma py_slice_range {A} (l : list A) a b :
  0 <= a <= b -> b <= len l ->
  py_slice l a b = take (Z.to_nat (b - a)) (drop (Z.to_nat a) l).
Proof.
  intros Hab Hb. unfold py_slice, slice_index, len in *.
  assert ((a <? 0) = false) as -> by lia.
  assert ((b <? 0) = false) as -> by lia.
  do 2 f_equal; lia.
Qed.

Lemma py_slice_from_nonneg {A} (l : list A) a :
  0 <= a -> py_slice_from l a = drop (Z.to_nat a) l.
Proof.
  intros Ha. unfold py_slice_from, slice_index, len.
  assert ((a <? 0) = false) as -> by lia.
  destruct (decide (a <= Z.of_nat (length l))) as [Hle|Hgt].
  - f_equal. lia.
  - rewrite !drop_ge by lia. done.
Qed.

Lemma py_slice_app_middle {A} (a b c : list A) :
  py_slice (a ++ b ++ c) (len a) (len a + len b) = b.
Proof.
  rewrite py_slice_range.
  - unfold len. replace (Z.to_nat (Z.of_nat (length a))) with (length a) by lia.
    rewrite drop_app_length.
    replace (Z.to_nat (_ + _ - _)) with (length b) by lia.
    by rewrite take_app_length.
  - unfold len. lia.
  - unfold len. rewrite !length_app. lia.
Qed.

Lemma take_while_spec {A} (f : A -> bool) l :
  exists rest, l = take_while f l ++ rest
    /\ (forall x, x ∈ take_while f l -> f x = true)
    /\ (rest = [] \/ exists x rest', rest = x :: rest' /\ f x = false).
Proof.
  induction l as [|y l IH]; simpl.
  - exists []. split; [done|]. split; [|by left].
    intros x Hx. by apply elem_of_nil in Hx.
  - destruct (f y) eqn:E.
    + destruct IH as (rest & Heq & Hall & Hrest). exists rest.
      split; [simpl; by f_equal|]. split; [|done].
      intros x Hx. apply elem_of_cons in Hx as [->|Hx]; [done | by apply Hall].
    + exists (y :: l). split; [done|]. split; [|right; eauto].
      intros x Hx. by apply elem_of_nil in Hx.
Qed.

Lemma take_while_app_stop {A} (f : A -> bool) l1 l2 :
  (forall x, x ∈ l1 -> f x = true) ->
  (l2 = [] \/ exists x rest, l2 = x :: rest /\ f x = false) ->
  take_while f (l1 ++ l2) = l1.
Proof.
  intros H1 H2. induction l1 as [|y l1 IH]; simpl.
  - destruct H2 as [->|(x & rest & -> & Hx)]; [done|]. simpl. by rewrite Hx.
  - rewrite (H1 y) by left. f_equal. apply IH. intros x Hx. apply H1. by right.
Qed.

(** ** The word before the cursor *)

Lemma re_search_no_line_feed text :
  "010"%char ∉ text ->
  re_search_nonspace_end text
  = Some (rev (take_while (fun c => negb (isspace c)) (rev text))).
Proof.
  intros Hnl. unfold re_search_nonspace_end.
  destruct (rev text) as [|c r] eqn:E; [done|].
  case_bool_decide as Hc; [|done]. exfalso. apply Hnl.
  apply list_elem_of_In, in_rev. rewrite E, Hc. by left.
Qed.

(** When the text before the cursor is [before ++ word], with [word] free of
    whitespace and [before] empty or ending in whitespace, the word starts
    right after [before]. *)
Lemma find_last_word_start_app before word after :
  "010"%char ∉ before ++ word ->
  (forall c, c ∈ word -> isspace c = false) ->
  (before = [] \/ exists b c, before = b ++ [c] /\ isspace c = true) ->
  find_last_word_start (before ++ word ++ after) (len before + len word) = len before.
Proof.
  intros Hnl Hword Hbefore. unfold find_last_word_start.
  destruct (Z.eqb_spec (len before + len word) 0) as [E|E].
  - unfold len in *. lia.
  - rewrite py_slice_0 by (unfold len; lia).
    replace (take _ _) with (before ++ word).
    2:{ rewrite app_assoc. symmetry. apply take_app_length'.
        unfold len. rewrite length_app. lia. }
    rewrite re_search_no_line_feed by done.
    rewrite rev_app_distr, take_while_app_stop.
    + rewrite rev_involutive. lia.
    + intros c Hc. apply list_elem_of_In, in_rev, list_elem_of_In in Hc.
      by rewrite Hword.
    + destruct Hbefore as [->|(b & c & -> & Hc)]; [by left|].
      right. rewrite rev_app_distr. simpl. exists c, (rev b). by rewrite Hc.
Qed.

Lemma current_word_split (text : str) cursor :
  0 <= cursor <= len text ->
  exists before word,
    text = before ++ word ++ drop (Z.to_nat cursor) text
    /\ cursor = len before + len word
    /\ (forall c, c ∈ word -> isspace c = false)
    /\ (before = [] \/ exists b c, before = b ++ [c] /\ isspace c = true).
Proof.
  intros Hc.
  destruct (take_while_spec (fun c => negb (isspace c)) (rev (take (Z.to_nat cursor) text)))
    as (rest & Heq & Hrun & Hrest).
  set (run := take_while _ _) in *.
  assert (take (Z.to_nat cursor) text = rev rest ++ rev run) as Htake.
  { rewrite <- rev_app_distr, <- Heq. by rewrite rev_involutive. }
  exists (rev rest), (rev run). split_and!.
  - rewrite app_assoc, <- Htake. by rewrite take_drop.
  - assert (length (take (Z.to_nat cursor) text) = Z.to_nat cursor) as Hlen.
    { rewrite length_take. unfold len in Hc. lia. }
    rewrite Htake, length_app in Hlen. unfold len. lia.
  - intros c Hin. apply list_elem_of_In, in_rev, list_elem_of_In, Hrun in Hin.
    by apply negb_true_iff.
  - destruct Hrest as [->|(x & rest' & -> & Hx)]; [by left|].
    right. exists (rev rest'), x. split; [done|]. by apply negb_false_iff.
Qed.

(** X1. In a buffer without line feed and with the cursor inside it, the word
    that [get_current_word] returns is the longest run of non-whitespace
    characters that ends at the cursor: it starts at [find_last_word_start],
    which lies between 0 and the cursor, it holds no whitespace, and it is
    preceded by a whitespace character unless it starts the buffer. *)
Theorem current_word_is_longest_run (u : TerminalUI) :
  0 <= cursor_pos u <= len (user_input u) ->
  "010"%char ∉ user_input u ->
  0 <= find_last_word_start (user_input u) (cursor_pos u) <= cursor_pos u
  /\ py_slice (user_input u) 0 (find_last_word_start (user_input u) (cursor_pos u))
     ++ get_current_word u ++ py_slice_from (user_input u) (cursor_pos u)
     = user_input u
  /\ (forall c, c ∈ get_current_word u -> isspace c = false)
  /\ (find_last_word_start (user_input u) (cursor_pos u) = 0
      \/ exists c, user_input u
                     !! Z.to_nat (find_last_word_start (user_input u) (cursor_pos u) - 1)
                   = Some c /\ isspace c = true).
Proof.
  intros Hc Hnl. unfold get_current_word.
  destruct (current_word_split (user_input u) (cursor_pos u) Hc)
    as (before & word & Htext & Hcur & Hword & Hbefore).
  set (after := drop (Z.to_nat (cursor_pos u)) (user_input u)) in *.
  assert (find_last_word_start (user_input u) (cursor_pos u) = len before) as ->.
  { rewrite Htext, Hcur. apply find_last_word_start_app; [|done..].
    intros Hin. apply Hnl. rewrite Htext, app_assoc. apply elem_of_app. by left. }
  assert (py_slice (user_input u) (len before) (cursor_pos u) = word) as ->.
  { rewrite Htext at 1. rewrite Hcur. apply py_slice_app_middle. }
  split_and!.
  - unfold len. lia.
  - unfold len in *. lia.
  - rewrite py_slice_from_nonneg by lia. fold after.
    rewrite py_slice_0 by (unfold len; lia).
    rewrite Htext at 1. unfold len.
    replace (Z.to_nat (Z.of_nat (length before))) with (length before) by lia.
    rewrite take_app_length. by rewrite <- Htext.
  - done.
  - destruct Hbefore as [->|(b & c & -> & Hsp)]; [by left|].
    right. exists c. split; [|done]. rewrite Htext. unfold len.
    rewrite length_app. simpl.
    replace (Z.to_nat (Z.of_nat (length b + 1) - 1)) with (length b) by lia.
    rewrite <- !app_assoc. simpl. by apply list_lookup_middle.
Qed.

Lemma current_word_is_longest_run_witness :
  0 <= cursor_pos two_word_session <= len (user_input two_word_session)
  /\ ("010"%char ∉ user_input two_word_session)
  /\ find_last_word_start (user_input two_word_session) (cursor_pos two_word_session) = 3
  /\ get_current_word two_word_session = s "cde"
  /\ (forall c, c ∈ get_current_word two_word_session -> isspace c = false).
Proof.
  assert (0 <= cursor_pos two_word_session <= len (user_input two_word_session)) as Hc
    by (vm_compute; split; discriminate).
  assert ("010"%char ∉ user_input two_word_session) as Hnl.
  { rewrite list_elem_of_In. vm_compute. intros H.
    repeat (destruct H as [H|H]; [discriminate H|]). exact H. }
  split; [exact Hc|]. split; [exact Hnl|].
  split; [reflexivity|]. split; [reflexivity|].
  apply (current_word_is_longest_run two_word_session Hc Hnl).
Defined.

(** ** The vocabulary holds words *)

Lemma split_from_tokens cur text w :
  cur = [] \/ (forall c, c ∈ cur -> isspace c = false) ->
  w ∈ split_from cur text ->
  w <> [] /\ (forall c, c ∈ w -> isspace c = false).
Proof.
  revert cur. induction text as [|c0 text IH]; intros cur Hcur Hw; simpl in Hw.
  - destruct cur as [|c cur]; [by apply elem_of_nil in Hw|].
    apply list_elem_of_singleton in Hw as ->.
    destruct Hcur as [?|Hcur]; [done|]. split.
    + intros E. apply (f_equal (@length ascii)) in E.
      rewrite length_rev in E. discriminate.
    + intros x Hx. apply Hcur. by apply list_elem_of_In, in_rev, list_elem_of_In.
  - destruct (isspace c0) eqn:E0.
    + destruct cur as [|c cur]; [by apply (IH []); [left|]|].
      apply elem_of_cons in Hw as [->|Hw]; [|by apply (IH []); [left|]].
      destruct Hcur as [?|Hcur]; [done|]. split.
      * intros E. apply (f_equal (@length ascii)) in E.
        rewrite length_rev in E. discriminate.
      * intros x Hx. apply Hcur. by apply list_elem_of_In, in_rev, list_elem_of_In.
    + apply (IH (c0 :: cur)); [|done]. right.
      intros x Hx. apply elem_of_cons in Hx as [->|Hx]; [done|].
      destruct Hcur as [->|Hcur]; [by apply elem_of_nil in Hx | by apply Hcur].
Qed.

Lemma trained_word_shape corpus n w :
  w ∈ words (_train (untrained n) corpus) ->
  w <> [] /\ (forall c, c ∈ w -> isspace c = false).
Proof.
  intros Hw. apply trained_words in Hw. unfold split in Hw.
  eapply split_from_tokens; [|exact Hw]. by left.
Qed.

(** X2. Every word of the vocabulary of a trained model is non-empty and
    holds no whitespace character. *)
Theorem vocabulary_words_are_tokens corpus n M w :
  __init__ corpus n = Returns M ->
  w ∈ words M ->
  w <> [] /\ (forall c, c ∈ w -> isspace c = false).
Proof.
  intros HM Hw. apply init_trained in HM as ->. by eapply trained_word_shape.
Qed.

Lemma vocabulary_words_are_tokens_witness :
  __init__ cat_corpus 2 = Returns cat_model
  /\ s "cats" ∈ words cat_model
  /\ s "cats" <> [] /\ (forall c, c ∈ s "cats" -> isspace c = false).
Proof.
  assert (s "cats" ∈ words cat_model) as Hw.
  { apply list_elem_of_In. vm_compute. tauto. }
  split; [reflexivity|]. split; [exact Hw|].
  apply (vocabulary_words_are_tokens cat_corpus 2 cat_model (s "cats") eq_refl Hw).
Defined.

(** ** What the key handling keeps true *)

Lemma py_index_ok {A} (l : list A) (i : nat) x :
  l !! i = Some x -> py_index l (Z.of_nat i) = Returns x.
Proof.
  intros Hx. pose proof (lookup_lt_Some _ _ _ Hx) as Hlt.
  unfold py_index, len.
  assert ((Z.of_nat i <? 0) = false) as -> by lia.
  assert (((0 <=? Z.of_nat i) && (Z.of_nat i <? Z.of_nat (length l))) = true) as ->.
  { apply andb_true_iff. split; lia. }
  by rewrite Nat2Z.id, Hx.
Qed.

Lemma printable_not_line_feed key :
  is_printable key = true -> ascii_of_nat (Z.to_nat key) <> "010"%char.
Proof.
  unfold is_printable. intros Hk E. apply andb_true_iff in Hk as [H1 H2].
  apply (f_equal nat_of_ascii) in E.
  rewrite nat_ascii_embedding in E by lia.
  change (nat_of_ascii "010") with 10%nat in E. lia.
Qed.

Lemma session_ok_same_fields M u u' :
  prediction_model u' = prediction_model u ->
  user_input u' = user_input u ->
  cursor_pos u' = cursor_pos u ->
  suggestions u' = suggestions u ->
  current_suggestion_idx u' = current_suggestion_idx u ->
  session_ok M u -> session_ok M u'.
Proof.
  intros H1 H2 H3 H4 H5. unfold session_ok, get_current_word.
  by rewrite H1, H2, H3, H4, H5.
Qed.

Lemma replace_current_word_split u new_word before word after :
  user_input u = before ++ word ++ after ->
  cursor_pos u = len before + len word ->
  find_last_word_start (user_input u) (cursor_pos u) = len before ->
  user_input (replace_current_word u new_word) = before ++ new_word ++ after
  /\ cursor_pos (replace_current_word u new_word) = len before + len new_word.
Proof.
  intros Htext Hcur Hws. unfold replace_current_word. simpl. rewrite Hws.
  split; [|done]. rewrite Htext, Hcur. f_equal; [|f_equal].
  - rewrite py_slice_0 by (unfold len; lia). unfold len.
    by rewrite Nat2Z.id, take_app_length.
  - rewrite py_slice_from_nonneg by (unfold len; lia). unfold len.
    rewrite app_assoc.
    replace (Z.to_nat _) with (length (before ++ word)) by (rewrite length_app; lia).
    by rewrite drop_app_length.
Qed.

Section Session.

Variable set_iter : list str -> list str.
Hypothesis set_iter_perm : forall ws, set_iter ws ≡ₚ ws.
Variable corpus : str.
Variable n : Z.

Local Abbreviation M := (_train (untrained n) corpus).

Lemma top_ten_shape p l :
  predict_top_words set_iter M p 10 = Returns l ->
  len l <= 10 /\ (forall w, w ∈ l -> w ∈ words M /\ startswith w p = true).
Proof.
  intros H. rewrite trained_predict_top_words in H by done.
  injection H as <-. rewrite py_slice_0 by lia. split.
  - unfold len. rewrite length_take. lia.
  - intros w Hw. apply elem_of_take_1 in Hw. rewrite sort_by_perm in Hw.
    by apply (elem_of_candidates_for set_iter).
Qed.

Lemma refresh_session_ok u1 :
  prediction_model u1 = M ->
  0 <= cursor_pos u1 <= len (user_input u1) ->
  "010"%char ∉ user_input u1 ->
  exists u2, refresh_suggestions set_iter u1 = Returns u2
    /\ session_ok M u2
    /\ user_input u2 = user_input u1
    /\ cursor_pos u2 = cursor_pos u1
    /\ scores u2 = scores u1
    /\ total_letter_keys_typed u2 = total_letter_keys_typed u1
    /\ total_tab_key_presses u2 = total_tab_key_presses u1.
Proof.
  intros HM Hc Hnl.
  destruct (trained_refresh_suggestions set_iter set_iter_perm corpus n u1 HM)
    as (l & Hl & ->).
  rewrite HM in Hl. apply top_ten_shape in Hl as [Hlen Hsug].
  eexists. split; [reflexivity|]. split; [|by simpl].
  unfold session_ok. simpl. split_and!; first [done | lia | by left].
Qed.

Lemma key_step_same u key b :
  session_ok M u ->
  b = negb (key =? 27) ->
  is_printable key = false ->
  (key =? 9) = false ->
  key_step_ok M u key (Returns (u, b)).
Proof.
  intros Hok -> Hp Ht. exists u. rewrite Hp, Ht. split_and!; try done; lia.
Qed.

(** *** The branches of [handle_input] *)

Lemma handle_input_enter u :
  handle_input set_iter u 10
  = match suggestions u with
    | [] => Returns (u, true)
    | _ :: _ =>
        if current_suggestion_idx u <? len (suggestions u) then
          let* new_word := py_index (suggestions u) (current_suggestion_idx u) in
          Returns ({| suggestions := [];
                      current_suggestion_idx := 0;
                      scores := scores (replace_current_word u new_word);
                      user_input := user_input (replace_current_word u new_word);
                      cursor_pos := cursor_pos (replace_current_word u new_word);
                      prediction_model := prediction_model (replace_current_word u new_word);
                      total_letter_keys_typed :=
                        total_letter_keys_typed (replace_current_word u new_word);
                      total_tab_key_presses :=
                        total_tab_key_presses (replace_current_word u new_word) |}, true)
        else Returns (u, true)
    end.
Proof. reflexivity. Qed.

Lemma handle_input_backspace u key :
  key = KEY_BACKSPACE \/ key = 127 \/ key = 8 ->
  handle_input set_iter u key
  = if 0 <? cursor_pos u then
      let* self3 :=
        refresh_suggestions set_iter
          (set_cursor_pos
             (set_user_input u (py_slice (user_input u) 0 (cursor_pos u - 1)
                                ++ py_slice_from (user_input u) (cursor_pos u)))
             (cursor_pos u - 1)) in
      Returns (refresh_scores self3, true)
    else Returns (u, true).
Proof. intros [->|[->| ->]]; reflexivity. Qed.

Lemma handle_input_char u key :
  is_printable key = true ->
  handle_input set_iter u key
  = let* self2 :=
      refresh_suggestions set_iter
        {| suggestions := suggestions u;
           current_suggestion_idx := current_suggestion_idx u;
           scores := scores u;
           user_input := py_slice (user_input u) 0 (cursor_pos u)
                         ++ [ascii_of_nat (Z.to_nat key)]
                         ++ py_slice_from (user_input u) (cursor_pos u);
           cursor_pos := cursor_pos u + 1;
           prediction_model := prediction_model u;
           total_letter_keys_typed := S (total_letter_keys_typed u);
           total_tab_key_presses := total_tab_key_presses u |} in
    Returns (refresh_scores self2, true).
Proof.
  intros Hk. unfold handle_input. fold (is_printable key). rewrite Hk.
  unfold is_printable in Hk. apply andb_true_iff in Hk as [H1 H2].
  unfold KEY_RESIZE, KEY_BACKSPACE, KEY_LEFT, KEY_RIGHT.
  assert ((key =? 410) = false) as -> by lia.
  assert ((key =? 27) = false) as -> by lia.
  assert ((key =? 9) = false) as -> by lia.
  assert ((key =? 10) = false) as -> by lia.
  assert ((key =? 263) = false) as -> by lia.
  assert ((key =? 127) = false) as -> by lia.
  assert ((key =? 8) = false) as -> by lia.
  assert ((key =? 260) = false) as -> by lia.
  assert ((key =? 261) = false) as -> by lia.
  reflexivity.
Qed.

Lemma handle_input_other u key :
  key <> KEY_RESIZE -> key <> 27 -> key <> 9 -> key <> 10 ->
  key <> KEY_BACKSPACE -> key <> 127 -> key <> 8 ->
  key <> KEY_LEFT -> key <> KEY_RIGHT -> is_printable key = false ->
  handle_input set_iter u key = Returns (u, true).
Proof.
  intros H1 H2 H3 H4 H5 H6 H7 H8 H9 Hk.
  unfold handle_input. fold (is_printable key). rewrite Hk.
  apply Z.eqb_neq in H1, H2, H3, H4, H5, H6, H7, H8, H9.
  by rewrite H1, H2, H3, H4, H5, H6, H7, H8, H9.
Qed.

Lemma key_step_tab u : session_ok M u -> key_step_ok M u 9 (handle_input set_iter u 9).
Proof.
  intros (HM & Hc & Hidx & Hnl & Hlen & Hsug).
  eexists. split; [reflexivity|]. split; [|simpl; split; lia].
  unfold session_ok, get_current_word in *. simpl. split_and!; try done; try lia.
  destruct (suggestions u) as [|x l] eqn:E.
  - left. unfold len in Hidx. simpl in Hidx. lia.
  - pose proof (Z.mod_pos_bound (current_suggestion_idx u + 1) (len (x :: l))) as Hm.
    unfold len in *. simpl length in *.
    destruct (decide ((current_suggestion_idx u + 1) `mod` Z.of_nat (S (length l)) = 0));
      [by left | right; lia].
Qed.

(** ENTER with a valid cycle index puts the chosen suggestion in the place of
    the word before the cursor. *)
Lemma enter_accepts u (i : nat) w :
  session_ok M u ->
  current_suggestion_idx u = Z.of_nat i ->
  suggestions u !! i = Some w ->
  exists before after u',
    user_input u = before ++ get_current_word u ++ after
    /\ cursor_pos u = len before + len (get_current_word u)
    /\ handle_input set_iter u 10 = Returns (u', true)
    /\ user_input u' = before ++ w ++ after
    /\ cursor_pos u' = len before + len w
    /\ suggestions u' = []
    /\ current_suggestion_idx u' = 0
    /\ get_current_word u' = w
    /\ startswith w (get_current_word u) = true
    /\ total_letter_keys_typed u' = total_letter_keys_typed u
    /\ total_tab_key_presses u' = total_tab_key_presses u
    /\ scores u' = scores u
    /\ session_ok M u'.
Proof.
  intros (HM & Hc & Hidx & Hnl & Hlen & Hsug) Hi Hw.
  destruct (current_word_split (user_input u) (cursor_pos u) Hc)
    as (before & word & Htext & Hcur & Hword & Hbefore).
  set (after := drop (Z.to_nat (cursor_pos u)) (user_input u)) in *.
  assert ("010"%char ∉ before ++ word) as Hnl1.
  { intros Hin. apply Hnl. rewrite Htext, app_assoc. apply elem_of_app. by left. }
  assert (find_last_word_start (user_input u) (cursor_pos u) = len before) as Hws.
  { rewrite Htext, Hcur. by apply find_last_word_start_app. }
  assert (get_current_word u = word) as Hgw.
  { unfold get_current_word. rewrite Hws. rewrite Htext at 1. rewrite Hcur.
    apply py_slice_app_middle. }
  assert (w ∈ suggestions u) as Hin by by eapply list_elem_of_lookup_2.
  destruct (Hsug w Hin) as [Hvoc Hstart].
  destruct (trained_word_shape corpus n w Hvoc) as [_ Hshape].
  destruct (replace_current_word_split u w before word after Htext Hcur Hws)
    as [Hbuf' Hcur'].
  pose proof (lookup_lt_Some _ _ _ Hw) as Hlt.
  exists before, after,
    {| suggestions := []; current_suggestion_idx := 0; scores := scores u;
       user_input := user_input (replace_current_word u w);
       cursor_pos := cursor_pos (replace_current_word u w);
       prediction_model := prediction_model u;
       total_letter_keys_typed := total_letter_keys_typed u;
       total_tab_key_presses := total_tab_key_presses u |}.
  rewrite Hgw. split_and!; try done.
  - rewrite handle_input_enter.
    destruct (suggestions u) as [|x l]; [by rewrite lookup_nil in Hw|].
    assert ((current_suggestion_idx u <? len (x :: l)) = true) as ->
      by (unfold len; lia).
    rewrite Hi, (py_index_ok _ _ _ Hw). reflexivity.
  - unfold get_current_word. cbn [user_input cursor_pos]. rewrite Hbuf', Hcur'.
    rewrite find_last_word_start_app; [apply py_slice_app_middle| |done..].
    intros Hnl2. apply elem_of_app in Hnl2 as [Hnl2|Hnl2].
    + apply Hnl1, elem_of_app. by left.
    + apply Hshape in Hnl2. discriminate.
  - by rewrite <- Hgw.
  - unfold session_ok, get_current_word.
    cbn [user_input cursor_pos prediction_model suggestions current_suggestion_idx].
    rewrite Hbuf', Hcur'.
    split_and!; try done; try (by left).
    + unfold len. lia.
    + unfold len. rewrite !length_app. lia.
    + intros Hnl2. rewrite !elem_of_app in Hnl2. destruct Hnl2 as [Hnl2|[Hnl2|Hnl2]].
      * apply Hnl1, elem_of_app. by left.
      * apply Hshape in Hnl2. discriminate.
      * apply Hnl. rewrite Htext, !elem_of_app. auto.
    + intros w' Hw'. by apply elem_of_nil in Hw'.
Qed.

Lemma key_step_enter u : session_ok M u -> key_step_ok M u 10 (handle_input set_iter u 10).
Proof.
  intros Hok. pose proof Hok as (HM & Hc & Hidx & Hnl & Hlen & Hsug).
  destruct (suggestions u) as [|x l] eqn:E.
  - rewrite handle_input_enter, E. by apply key_step_same.
  - assert (0 <= current_suggestion_idx u < len (suggestions u)) as Hi.
    { rewrite E. unfold len in *. simpl length in *. lia. }
    destruct (lookup_lt_is_Some_2 (suggestions u) (Z.to_nat (current_suggestion_idx u)))
      as (w & Hw); [unfold len in Hi; lia|].
    destruct (enter_accepts u (Z.to_nat (current_suggestion_idx u)) w Hok)
      as (before & after & u' & _ & _ & -> & _ & _ & _ & _ & _ & _ & Hl & Ht & _ & Hok');
      [lia|exact Hw|].
    exists u'. split_and!; [done|done|simpl; lia|simpl; lia].
Qed.

Lemma elem_of_drop_1 {A} (x : A) k l : x ∈ drop k l -> x ∈ l.
Proof.
  intros Hx. rewrite <- (take_drop k l). apply elem_of_app. by right.
Qed.

(** A printable key inserts its character at the cursor. *)
Lemma char_inserts u key :
  session_ok M u ->
  is_printable key = true ->
  exists u', handle_input set_iter u key = Returns (u', true)
    /\ user_input u' = take (Z.to_nat (cursor_pos u)) (user_input u)
                       ++ ascii_of_nat (Z.to_nat key)
                       :: drop (Z.to_nat (cursor_pos u)) (user_input u)
    /\ cursor_pos u' = cursor_pos u + 1
    /\ total_letter_keys_typed u' = S (total_letter_keys_typed u)
    /\ total_tab_key_presses u' = total_tab_key_presses u
    /\ scores u' = calculate_scores u' (user_input u')
    /\ session_ok M u'.
Proof.
  intros (HM & Hc & Hidx & Hnl & Hlen & Hsug) Hk.
  rewrite handle_input_char by done.
  rewrite py_slice_0, py_slice_from_nonneg by lia.
  match goal with |- context [refresh_suggestions set_iter ?x] => set (u1 := x) end.
  destruct (refresh_session_ok u1) as (u2 & -> & Hok2 & Hui & Hcp & Hsc & Hl & Ht).
  - done.
  - unfold u1, len in *. simpl.
    rewrite length_app, length_take. simpl. rewrite length_drop. lia.
  - unfold u1. simpl. intros Hin. apply elem_of_app in Hin as [Hin|Hin].
    + by apply Hnl, (elem_of_take_1 _ (Z.to_nat (cursor_pos u))).
    + apply elem_of_cons in Hin as [Hin|Hin].
      * symmetry in Hin. by apply printable_not_line_feed in Hin.
      * by apply Hnl, (elem_of_drop_1 _ (Z.to_nat (cursor_pos u))).
  - exists (refresh_scores u2). split; [reflexivity|].
    unfold u1 in Hui, Hcp, Hsc, Hl, Ht. simpl in Hui, Hcp, Hsc, Hl, Ht.
    split_and!.
    + simpl. by rewrite Hui.
    + simpl. by rewrite Hcp.
    + simpl. by rewrite Hl.
    + simpl. by rewrite Ht.
    + reflexivity.
    + by eapply session_ok_same_fields; [..|exact Hok2].
Qed.

(** Backspace, DEL or ctrl-H with the cursor past the start deletes the
    character before the cursor. *)
Lemma backspace_deletes u key :
  session_ok M u ->
  key = KEY_BACKSPACE \/ key = 127 \/ key = 8 ->
  0 < cursor_pos u ->
  exists u', handle_input set_iter u key = Returns (u', true)
    /\ user_input u' = take (Z.to_nat (cursor_pos u - 1)) (user_input u)
                       ++ drop (Z.to_nat (cursor_pos u)) (user_input u)
    /\ cursor_pos u' = cursor_pos u - 1
    /\ total_letter_keys_typed u' = total_letter_keys_typed u
    /\ total_tab_key_presses u' = total_tab_key_presses u
    /\ scores u' = calculate_scores u' (user_input u')
    /\ session_ok M u'.
Proof.
  intros (HM & Hc & Hidx & Hnl & Hlen & Hsug) Hkey Hpos.
  rewrite handle_input_backspace by done.
  assert ((0 <? cursor_pos u) = true) as -> by lia.
  rewrite py_slice_0, py_slice_from_nonneg by lia.
  match goal with |- context [refresh_suggestions set_iter ?x] => set (u1 := x) end.
  destruct (refresh_session_ok u1) as (u2 & -> & Hok2 & Hui & Hcp & Hsc & Hl & Ht).
  - done.
  - unfold u1, len in *. simpl.
    rewrite length_app, length_take, length_drop. lia.
  - unfold u1. simpl. intros Hin. apply elem_of_app in Hin as [Hin|Hin].
    + by apply Hnl, (elem_of_take_1 _ (Z.to_nat (cursor_pos u - 1))).
    + by apply Hnl, (elem_of_drop_1 _ (Z.to_nat (cursor_pos u))).
  - exists (refresh_scores u2). split; [reflexivity|].
    unfold u1 in Hui, Hcp, Hsc, Hl, Ht. simpl in Hui, Hcp, Hsc, Hl, Ht.
    split_and!.
    + simpl. by rewrite Hui.
    + simpl. by rewrite Hcp.
    + simpl. by rewrite Hl.
    + simpl. by rewrite Ht.
    + reflexivity.
    + by eapply session_ok_same_fields; [..|exact Hok2].
Qed.

Lemma key_step_backspace u key :
  session_ok M u ->
  key = KEY_BACKSPACE \/ key = 127 \/ key = 8 ->
  key_step_ok M u key (handle_input set_iter u key).
Proof.
  intros Hok Hkey.
  assert (negb (key =? 27) = true /\ is_printable key = false /\ (key =? 9) = false)
    as (Hq & Hp & Ht) by (destruct Hkey as [->|[->| ->]]; done).
  destruct (Z.ltb_spec 0 (cursor_pos u)) as [Hpos|Hzero].
  - destruct (backspace_deletes u key Hok Hkey Hpos)
      as (u' & -> & _ & _ & Hl & Htab & _ & Hok').
    exists u'. rewrite Hq, Hp, Ht. split_and!; [done|done|lia|lia].
  - rewrite handle_input_backspace by done.
    assert ((0 <? cursor_pos u) = false) as -> by lia.
    by apply key_step_same.
Qed.

Lemma key_step_arrow u key :
  session_ok M u ->
  key = KEY_LEFT \/ key = KEY_RIGHT ->
  key_step_ok M u key (handle_input set_iter u key).
Proof.
  intros Hok Hkey. pose proof Hok as (HM & Hc & Hidx & Hnl & Hlen & Hsug).
  destruct Hkey as [->| ->].
  - rewrite handle_input_left. destruct (Z.ltb_spec 0 (cursor_pos u)) as [Hpos|Hzero];
      [|by apply key_step_same].
    destruct (refresh_session_ok (set_cursor_pos u (cursor_pos u - 1)))
      as (u2 & -> & Hok2 & _ & _ & _ & Hl & Ht); [done|simpl; lia|done|].
    exists u2. split_and!; [done|done|simpl in *; lia|simpl in *; lia].
  - rewrite handle_input_right.
    destruct (Z.ltb_spec (cursor_pos u) (len (user_input u))) as [Hpos|Hend];
      [|by apply key_step_same].
    destruct (refresh_session_ok (set_cursor_pos u (cursor_pos u + 1)))
      as (u2 & -> & Hok2 & _ & _ & _ & Hl & Ht); [done|simpl; lia|done|].
    exists u2. split_and!; [done|done|simpl in *; lia|simpl in *; lia].
Qed.

Lemma key_step_char u key :
  session_ok M u ->
  is_printable key = true ->
  key_step_ok M u key (handle_input set_iter u key).
Proof.
  intros Hok Hk.
  destruct (char_inserts u key Hok Hk) as (u' & -> & _ & _ & Hl & Ht & _ & Hok').
  assert ((key =? 27) = false /\ (key =? 9) = false) as [Hq Htab].
  { unfold is_printable in Hk. apply andb_true_iff in Hk. lia. }
  exists u'. rewrite Hk, Hq, Htab. split_and!; [done|done|lia|lia].
Qed.

(** Whatever the key, [handle_input] returns, and keeps the session sound. *)
Lemma key_step u key :
  session_ok M u -> key_step_ok M u key (handle_input set_iter u key).
Proof.
  intros Hok.
  destruct (decide (key = KEY_RESIZE)) as [->|H1]; [by apply key_step_same|].
  destruct (decide (key = 27)) as [->|H2]; [by apply key_step_same|].
  destruct (decide (key = 9)) as [->|H3]; [by apply key_step_tab|].
  destruct (decide (key = 10)) as [->|H4]; [by apply key_step_enter|].
  destruct (decide (key = KEY_BACKSPACE)) as [->|H5];
    [apply key_step_backspace; auto|].
  destruct (decide (key = 127)) as [->|H6]; [apply key_step_backspace; auto|].
  destruct (decide (key = 8)) as [->|H7]; [apply key_step_backspace; auto|].
  destruct (decide (key = KEY_LEFT)) as [->|H8]; [apply key_step_arrow; auto|].
  destruct (decide (key = KEY_RIGHT)) as [->|H9]; [apply key_step_arrow; auto|].
  destruct (is_printable key) eqn:Hk; [by apply key_step_char|].
  rewrite handle_input_other by done.
  apply key_step_same; [done| |done|]; lia.
Qed.

(** The loop of [run] never raises; it ends in a sound session whose counters
    count the printable keys and the tabs among the keys dispatched. *)
Lemma run_steps keys u :
  session_ok M u ->
  exists u', run set_iter u keys = Returns u'
    /\ session_ok M u'
    /\ total_letter_keys_typed u'
       = (total_letter_keys_typed u + count_if is_printable (until_quit keys))%nat
    /\ total_tab_key_presses u'
       = (total_tab_key_presses u + count_if (fun key => (key =? 9)%Z) (until_quit keys))%nat.
Proof.
  revert u. induction keys as [|key keys IH]; intros u Hok.
  - exists u. unfold count_if. simpl. split_and!; [done|done|lia|lia].
  - cbn [run].
    destruct (key_step u key Hok) as (u1 & -> & Hok1 & Hl1 & Ht1).
    cbn [bind snd fst]. unfold until_quit. cbn [take_while].
    destruct (Z.eqb_spec key 27) as [->|Hq]; cbn [negb].
    + exists u1. unfold count_if. simpl in *. split_and!; [done|done|lia|lia].
    + destruct (IH u1 Hok1) as (u' & -> & Hok' & Hl & Ht).
      exists u'. fold (until_quit keys). unfold count_if in *. cbn [List.filter].
      split_and!; [done|done|..].
      * rewrite Hl, Hl1. destruct (is_printable key); simpl; lia.
      * rewrite Ht, Ht1. destruct (key =? 9); simpl; lia.
Qed.

End Session.
